(** * stock_analysis.py: loading, reshaping and charting two price tables

    A shallow embedding of [src/stock_analysis.py].  The script reads two CSV
    files with pandas, keeps the rows of one stock code, tags them with their
    origin, stacks them into one long table and hands that table to altair.

    What belongs to pandas, altair and the operating system is kept apart
    from what the script itself does:
    - the outside world ([os.path.exists], [pd.read_csv], the conversion
      of a column by [pd.to_datetime], [chart.save]) is a record [Env] of
      responses;
    - every call that reaches the outside world is recorded, in program
      order, in the trace of the [IO] computation;
    - exceptions are values of [Exn] carried by [result]. *)

From Stdlib Require Import QArith.
From stdpp Require Import gmap strings list pretty.

Local Open Scope string_scope.
Local Open Scope Z_scope.

(** ** Exceptions *)

(** The Python exception classes the script raises itself, plus the ones
    that can only come out of a library call. *)
Inductive ExnClass : Type :=
  | FileNotFoundError
  | ValueError
  | KeyError
  | LibraryError (name : string).

(** An exception object: its class and [str(e)]. *)
Record Exn : Type := mkExn { exn_class : ExnClass; exn_msg : string }.

Inductive result (A : Type) : Type :=
  | Ok (a : A)
  | Raise (e : Exn).
Arguments Ok {A} a.
Arguments Raise {A} e.

Definition is_ok {A} (r : result A) : bool :=
  match r with Ok _ => true | Raise _ => false end.

(** ** Cells, rows and data frames *)

(** [pd.Timestamp]: a calendar date (the time of day is left out), or
    [NaT]. *)
Inductive Timestamp : Type :=
  | NaT
  | Date (year month day : Z).

(** The value of one cell.  A float is carried as the rational it
    stands for. *)
Inductive Cell : Type :=
  | CNaN
  | CInt (z : Z)
  | CFloat (q : Q)
  | CBool (b : bool)
  | CStr (s : string)
  | CTime (t : Timestamp).

(** A data frame as an ordered sequence of rows under a list of column
    labels.  The position of a row in [rows] is its place in the file; a
    label absent from a row reads as [NaN]. *)
Record DataFrame : Type := mkDataFrame {
  columns : list string;
  rows : list (gmap string Cell)
}.

Definition cell (r : gmap string Cell) (col : string) : Cell :=
  default CNaN (r !! col).

(** [col in df.columns] *)
Definition has_column (df : DataFrame) (col : string) : bool :=
  bool_decide (col ∈ columns df).

(** [len(df)] *)
Definition len (df : DataFrame) : nat := length (rows df).

(** [df.empty]: some axis has length zero. *)
Definition empty (df : DataFrame) : bool :=
  match columns df, rows df with
  | _ :: _, _ :: _ => false
  | _, _ => true
  end.

(** [repr] of a column label and of a list of column labels. *)
Definition repr_str (s : string) : string := "'" +:+ s +:+ "'".

Fixpoint join (sep : string) (l : list string) : string :=
  match l with
  | [] => ""
  | [s] => s
  | s :: l' => s +:+ sep +:+ join sep l'
  end.

Definition repr_list (l : list string) : string :=
  "[" +:+ join ", " (repr_str <$> l) +:+ "]".

(** [df[col]] *)
Definition getitem (df : DataFrame) (col : string) : result (list Cell) :=
  if has_column df col
  then Ok ((λ r, cell r col) <$> rows df)
  else Raise (mkExn KeyError (repr_str col)).

(** The float64 nearest to the integer [z] (ties to even), which is an
    integer itself once [z] needs more than 53 bits; [None] when [z] is
    beyond the range of float64. *)
Definition float64_of_Z (z : Z) : option Z :=
  let a := Z.abs z in
  let bits := Z.log2 a + 1 in
  if bits <=? 53 then Some z
  else
    let s := bits - 53 in
    let hi := Z.shiftr a s in
    let lo := Z.land a (Z.ones s) in
    let half := Z.shiftl 1 (s - 1) in
    let hi' := if (half <? lo) || ((lo =? half) && Z.odd hi) then hi + 1 else hi in
    let r := Z.shiftl hi' s in
    if Z.shiftl 1 1024 <=? r then None else Some (Z.sgn z * r).

(** One element of [series == v] for an integer [v].  An integer cell is
    compared with [v] as it is; for a float cell numpy converts [v] to
    float64 first and compares the two floats. *)
Definition eq_scalar (c : Cell) (v : Z) : bool :=
  match c with
  | CInt z => Z.eqb z v
  | CFloat q =>
      match float64_of_Z v with
      | Some f => Qeq_bool q (inject_Z f)
      | None => false
      end
  | CBool b => Z.eqb (if b then 1 else 0) v
  | _ => false
  end.

(** [df[df[col] == v].copy()]: the rows whose [col] equals [v], in the
    order they have in [df], under the same columns. *)
Definition select_eq (df : DataFrame) (col : string) (v : Z) : result DataFrame :=
  if has_column df col
  then Ok {| columns := columns df;
             rows := List.filter (λ r, eq_scalar (cell r col) v) (rows df) |}
  else Raise (mkExn KeyError (repr_str col)).

Definition add_label (col : string) (cols : list string) : list string :=
  if bool_decide (col ∈ cols) then cols else cols ++ [col].

(** The rows with the i-th value under [col] in the i-th row, and [NaN]
    where the values run out. *)
Fixpoint assign (col : string) (rs : list (gmap string Cell)) (values : list Cell)
    : list (gmap string Cell) :=
  match rs with
  | [] => []
  | r :: rs' => <[col := hd CNaN values]> r :: assign col rs' (tl values)
  end.

(** [df[col] = values], for a series over the index of [df]: every row
    keeps its place and gets the value at its place. *)
Definition setitem (df : DataFrame) (col : string) (values : list Cell) : DataFrame :=
  {| columns := add_label col (columns df);
     rows := assign col (rows df) values |}.

(** [df[col] = v] for a scalar [v]: every row gets it. *)
Definition setitem_scalar (df : DataFrame) (col : string) (v : Cell) : DataFrame :=
  {| columns := add_label col (columns df);
     rows := (λ r, <[col := v]> r) <$> rows df |}.

Definition restrict (cols : list string) (r : gmap string Cell) : gmap string Cell :=
  filter (λ kv, kv.1 ∈ cols) r.

(** [df[[c1, c2, ...]]] *)
Definition getitem_list (df : DataFrame) (cols : list string) : result DataFrame :=
  match List.filter (λ c, negb (has_column df c)) cols with
  | [] => Ok {| columns := cols; rows := restrict cols <$> rows df |}
  | missing => Raise (mkExn KeyError (repr_list missing +:+ " not in index"))
  end.

(** A cell of an int64, uint64 or float64 column. *)
Definition is_numeric (c : Cell) : bool :=
  match c with
  | CNaN | CFloat _ => true
  | CInt z => (- Z.shiftl 1 63 <=? z) && (z <? Z.shiftl 1 64)
  | _ => false
  end.

(** A cell only a float64 column can hold. *)
Definition is_floating (c : Cell) : bool :=
  match c with
  | CNaN | CFloat _ => true
  | _ => false
  end.

(** The cell as a float64: an integer becomes the float nearest to it. *)
Definition to_float64 (c : Cell) : Cell :=
  match c with
  | CInt z =>
      match float64_of_Z z with
      | Some f => CFloat (inject_Z f)
      | None => c
      end
  | _ => c
  end.

(** The common dtype of one column of stacked frames: where integers meet
    floats (or missing values) the column becomes float64 and the integers
    are converted; any other mix keeps the values as they are. *)
Definition upcast (col : string) (rs : list (gmap string Cell))
    : list (gmap string Cell) :=
  let cells := (λ r, cell r col) <$> rs in
  if forallb is_numeric cells && existsb is_floating cells
  then alter to_float64 col <$> rs
  else rs.

(** [pd.concat(frames, ignore_index=True)]: the rows of the frames one
    after the other, under the union of their columns, each column in the
    common dtype of its parts. *)
Definition concat_ignore_index (frames : list DataFrame) : DataFrame :=
  let cols := remove_dups (concat (columns <$> frames)) in
  {| columns := cols;
     rows := foldr upcast (concat (rows <$> frames)) cols |}.

(** ** Charts *)

(** [alt.X], [alt.Y], [alt.Color] *)
Record Channel : Type := mkChannel { ch_field : string; ch_title : string }.

(** [alt.Tooltip] *)
Record Tooltip : Type := mkTooltip {
  tt_field : string;
  tt_title : string;
  tt_format : option string
}.

Record Encoding : Type := mkEncoding {
  enc_x : Channel;
  enc_y : Channel;
  enc_color : Channel;
  enc_tooltip : list Tooltip
}.

Inductive Mark : Type :=
  | NoMark
  | MarkLine
  | MarkPoint (opacity : Q) (size : Z).

(** [alt.Chart] *)
Record Chart : Type := mkChart {
  chart_data : DataFrame;
  chart_encoding : option Encoding;
  chart_mark : Mark;
  chart_title : option string
}.

(** [alt.LayerChart] *)
Record LayerChart : Type := mkLayerChart {
  layers : list Chart;
  is_interactive : bool
}.

Definition alt_Chart (data : DataFrame) : Chart :=
  {| chart_data := data; chart_encoding := None;
     chart_mark := NoMark; chart_title := None |}.

Definition encode (c : Chart) (e : Encoding) : Chart :=
  {| chart_data := chart_data c; chart_encoding := Some e;
     chart_mark := chart_mark c; chart_title := chart_title c |}.

Definition mark_line (c : Chart) : Chart :=
  {| chart_data := chart_data c; chart_encoding := chart_encoding c;
     chart_mark := MarkLine; chart_title := chart_title c |}.

Definition mark_point (c : Chart) (opacity : Q) (size : Z) : Chart :=
  {| chart_data := chart_data c; chart_encoding := chart_encoding c;
     chart_mark := MarkPoint opacity size; chart_title := chart_title c |}.

Definition properties (c : Chart) (title : string) : Chart :=
  {| chart_data := chart_data c; chart_encoding := chart_encoding c;
     chart_mark := chart_mark c; chart_title := Some title |}.

(** [a + b] *)
Definition layer (a b : Chart) : LayerChart :=
  {| layers := [a; b]; is_interactive := false |}.

Definition interactive (c : LayerChart) : LayerChart :=
  {| layers := layers c; is_interactive := true |}.

(** ** The outside world *)

(** How the world answers the script's calls.  Nothing is assumed about
    the answers. *)
Record Env : Type := mkEnv {
  (** [os.path.exists(path)] *)
  path_exists : string → bool;
  (** [pd.read_csv(path)] *)
  read_csv : string → result DataFrame;
  (** [pd.to_datetime(series)] on the values of the series: the library
      converts the column as a whole, so whether and to what a value
      converts may depend on the values around it *)
  to_datetime : list Cell → result (list Timestamp);
  (** [chart.save(path)] *)
  save_chart : LayerChart → string → result unit
}.

(** One call to the outside world. *)
Inductive Event : Type :=
  | EvPathExists (path : string)
  | EvReadCsv (path : string)
  | EvPrint (line : string)
  | EvSave (path : string) (chart : LayerChart).

(** A computation that has run: the calls it made, in order, and how it
    ended. *)
Record IO (A : Type) : Type := mkIO {
  trace : list Event;
  outcome : result A
}.
Arguments mkIO {A} trace outcome.
Arguments trace {A} _.
Arguments outcome {A} _.

#[global] Instance IO_ret : MRet IO := λ A a, mkIO [] (Ok a).

#[global] Instance IO_bind : MBind IO := λ A B f m,
  match outcome m with
  | Ok a => let '(mkIO t r) := f a in mkIO (trace m ++ t) r
  | Raise e => mkIO (trace m) (Raise e)
  end.

(** [raise e] *)
Definition raise {A} (e : Exn) : IO A := mkIO [] (Raise e).

(** A library call that touches nothing outside the process. *)
Definition lift {A} (r : result A) : IO A := mkIO [] r.

(** [if b: body] *)
Definition when (b : bool) (body : IO unit) : IO unit :=
  if b then body else mret tt.

(** [for x in xs: body] *)
Fixpoint for_each {A} (xs : list A) (body : A → IO unit) : IO unit :=
  match xs with
  | [] => mret tt
  | x :: xs' => body x;; for_each xs' body
  end.

(** [try: body / except Exception as e: handler] *)
Definition try_except {A} (body : IO A) (handler : Exn → IO A) : IO A :=
  match outcome body with
  | Ok a => body
  | Raise e => let '(mkIO t r) := handler e in mkIO (trace body ++ t) r
  end.

Definition print (line : string) : IO unit := mkIO [EvPrint line] (Ok tt).

#[global] Instance result_ret : MRet result := λ A a, Ok a.

#[global] Instance result_bind : MBind result := λ A B f r,
  match r with
  | Ok a => f a
  | Raise e => Raise e
  end.

(** [if s:] for an [Optional[str]]: [None] and the empty string are false. *)
Definition truthy (s : option string) : bool :=
  match s with
  | None => false
  | Some p => negb (String.eqb p "")
  end.

(** A series of timestamps over the index of [series]: the i-th stamp at
    the i-th place, [NaT] where the stamps run out. *)
Fixpoint over_index (series : list Cell) (stamps : list Timestamp) : list Cell :=
  match series with
  | [] => []
  | _ :: series' => CTime (hd NaT stamps) :: over_index series' (tl stamps)
  end.

(** ** The script *)

Section Script.

Context (env : Env).

Definition os_path_exists (path : string) : IO bool :=
  mkIO [EvPathExists path] (Ok (path_exists env path)).

Definition pd_read_csv (path : string) : IO DataFrame :=
  mkIO [EvReadCsv path] (read_csv env path).

(** [pd.to_datetime(series)]: the library's answer for the column, as a
    series over the index of the one given - one timestamp for each place. *)
Definition pd_to_datetime (series : list Cell) : result (list Cell) :=
  stamps ← to_datetime env series;
  mret (over_index series stamps).

(** [chart.save(path)] *)
Definition chart_save (chart : LayerChart) (path : string) : IO unit :=
  mkIO [EvSave path chart] (save_chart env chart path).

Definition required_columns : list string :=
  ["stock_code"; "trade_date"; "close"].

(** The body of the loop at lines 45-48. *)
Definition check_required_columns (item : DataFrame * string) : IO unit :=
  let '(df, name) := item in
  let missing_cols :=
    List.filter (λ col, negb (has_column df col)) required_columns in
  match missing_cols with
  | [] => mret tt
  | _ :: _ =>
      raise (mkExn ValueError (name +:+ "缺少必要的列: " +:+ repr_list missing_cols))
  end.

(** Lines 33-75, the body of the [try]. *)
Definition load_body (processed_file unprocessed_file : string)
    (stock_code : Z) (period_type : string) : IO DataFrame :=
  found ← os_path_exists processed_file;
  when (negb found)
    (raise (mkExn FileNotFoundError
              ("处理后的数据文件不存在: " +:+ processed_file)));;
  found ← os_path_exists unprocessed_file;
  when (negb found)
    (raise (mkExn FileNotFoundError
              ("处理前的数据文件不存在: " +:+ unprocessed_file)));;
  df_processed ← pd_read_csv processed_file;
  df_unprocessed ← pd_read_csv unprocessed_file;
  for_each [(df_processed, "处理后数据"); (df_unprocessed, "处理前数据")]
    check_required_columns;;
  df_proc_stock ← lift (select_eq df_processed "stock_code" stock_code);
  df_unproc_stock ← lift (select_eq df_unprocessed "stock_code" stock_code);
  when (empty df_proc_stock)
    (raise (mkExn ValueError
              ("在处理后数据中未找到股票代码 " +:+ pretty stock_code)));;
  when (empty df_unproc_stock)
    (raise (mkExn ValueError
              ("在处理前数据中未找到股票代码 " +:+ pretty stock_code)));;
  dates ← lift (getitem df_proc_stock "trade_date" ≫= pd_to_datetime);
  let df_proc_stock := setitem df_proc_stock "trade_date" dates in
  dates ← lift (getitem df_unproc_stock "trade_date" ≫= pd_to_datetime);
  let df_unproc_stock := setitem df_unproc_stock "trade_date" dates in
  let df_proc_stock := setitem_scalar df_proc_stock "type" (CStr "处理后") in
  let df_unproc_stock := setitem_scalar df_unproc_stock "type" (CStr "处理前") in
  df_proc_plot ← lift (getitem_list df_proc_stock ["trade_date"; "close"; "type"]);
  df_unproc_plot ← lift (getitem_list df_unproc_stock ["trade_date"; "close"; "type"]);
  let df_combined := concat_ignore_index [df_unproc_plot; df_proc_plot] in
  mret df_combined.

Definition load_and_prepare_data (processed_file unprocessed_file : string)
    (stock_code : Z) (period_type : string) : IO DataFrame :=
  try_except
    (load_body processed_file unprocessed_file stock_code period_type)
    (λ e, print ("数据加载和处理过程中出现错误: " +:+ exn_msg e);; raise e).

Definition chart_title_of (stock_code : Z) (period_type : string) : string :=
  "股票 " +:+ pretty stock_code +:+ "：" +:+ period_type +:+ "处理前后收盘价对比".

Definition create_comparison_chart (df_combined : DataFrame)
    (stock_code : Z) (period_type : string) (output_file : option string)
    : IO LayerChart :=
  let base := encode (alt_Chart df_combined)
    {| enc_x := mkChannel "trade_date" "交易日期";
       enc_y := mkChannel "close" "收盘价";
       enc_color := mkChannel "type" "数据状态";
       enc_tooltip :=
         [ mkTooltip "trade_date" "日期" (Some "%Y-%m-%d");
           mkTooltip "close" "收盘价" (Some ".2f");
           mkTooltip "type" "状态" None ] |} in
  let line := properties (mark_line base) (chart_title_of stock_code period_type) in
  let points := mark_point base (6 # 10) 30 in
  let chart := interactive (layer line points) in
  when (truthy output_file)
    (let path := default "" output_file in
     chart_save chart path;;
     print ("图表已保存至: " +:+ path));;
  mret chart.

Definition default_processed_file : string :=
  "../../../xwechat_files/wxid_jo9dg9bjbasy12_38bf/msg/file/2025-11/processed_data.csv".

Definition default_unprocessed_file : string :=
  "../../../xwechat_files/wxid_jo9dg9bjbasy12_38bf/msg/file/2025-11/军工板块2020_01_01——2025_10_17周线数据数据（未清洗）.csv".

Definition default_period_type : string := "周线".

Definition generated_output_file (stock_code : Z) (period_type : string) : string :=
  "stock_" +:+ pretty stock_code +:+ "_" +:+ period_type +:+ "_comparison_chart.json".

Definition compare_stock_data (stock_code : Z)
    (processed_file unprocessed_file period_type : string)
    (output_file : option string) : IO LayerChart :=
  when (negb (bool_decide (period_type ∈ ["周线"; "日线"])))
    (raise (mkExn ValueError "period_type 必须是 '周线' 或 '日线'"));;
  let output_file :=
    match output_file with
    | None => Some (generated_output_file stock_code period_type)
    | Some path => Some path
    end in
  print ("开始处理股票 " +:+ pretty stock_code +:+ " 的" +:+ period_type +:+ "数据对比...");;
  df_combined ← load_and_prepare_data processed_file unprocessed_file
                  stock_code period_type;
  chart ← create_comparison_chart df_combined stock_code period_type output_file;
  print ("股票 " +:+ pretty stock_code +:+ " 的" +:+ period_type +:+ "数据对比图表生成完成！");;
  mret chart.

(** The [__main__] block. *)
Definition main : IO LayerChart :=
  compare_stock_data 920225 default_processed_file default_unprocessed_file
    "周线" None.

End Script.

(** ** Vocabulary of the statements *)

(** The rows of [df] whose [stock_code] is [stock_code], in file order. *)
Definition matching (df : DataFrame) (stock_code : Z) : list (gmap string Cell) :=
  List.filter (λ r, eq_scalar (cell r "stock_code") stock_code) (rows df).

(** The required columns that [df] lacks. *)
Definition missing_columns (df : DataFrame) : list string :=
  List.filter (λ col, negb (has_column df col)) required_columns.

(** The [trade_date] cells of a list of rows. *)
Definition trade_dates (rs : list (gmap string Cell)) : list Cell :=
  (λ r, cell r "trade_date") <$> rs.

Definition plot_columns : list string := ["trade_date"; "close"; "type"].

(** What lines 61-70 make of one retained row [r] whose date converts to
    the cell [d]: date replaced, tag added, three columns kept. *)
Definition plot_row (tag : string) (r : gmap string Cell) (d : Cell) : gmap string Cell :=
  restrict plot_columns (<["type" := CStr tag]> (<["trade_date" := d]> r)).

(** What lines 61-70 make of the retained rows and their converted
    dates, row by row. *)
Fixpoint plot_rows (tag : string) (rs : list (gmap string Cell)) (ds : list Cell)
    : list (gmap string Cell) :=
  match rs with
  | [] => []
  | r :: rs' => plot_row tag r (hd CNaN ds) :: plot_rows tag rs' (tl ds)
  end.

(** [rec] is the record made from the source row [r] of the file tagged
    [tag], whose date was converted to the cell [d]: it carries the tag,
    that date, the close of [r] - as it is or, where [pd.concat] made the
    column float64, as a float - and no stock code. *)
Definition made_from (tag : string) (rec r : gmap string Cell) (d : Cell) : Prop :=
  rec !! "type" = Some (CStr tag)
  ∧ rec !! "trade_date" = Some d
  ∧ (cell rec "close" = cell r "close"
     ∨ cell rec "close" = to_float64 (cell r "close"))
  ∧ rec !! "stock_code" = None.

(** [r'] is the row [r] after [pd.concat]: under every label the same
    value, or that value as a float64. *)
Definition casted (r r' : gmap string Cell) : Prop :=
  ∀ col, r' !! col = r !! col ∨ r' !! col = to_float64 <$> r !! col.



(** The paths handed to [chart.save], in order. *)
Definition saved_files (t : list Event) : list string :=
  omap (λ ev, match ev with EvSave path _ => Some path | _ => None end) t.

(** The paths handed to [os.path.exists] or [pd.read_csv], in order. *)
Definition touched_files (t : list Event) : list string :=
  omap (λ ev, match ev with
              | EvPathExists path | EvReadCsv path => Some path
              | _ => None
              end) t.


(** The same world with another date conversion. *)
Definition with_converter (env : Env)
    (converter : list Cell → result (list Timestamp)) : Env :=
  {| path_exists := path_exists env; read_csv := read_csv env;
     to_datetime := converter; save_chart := save_chart env |}.

(** The chart [create_comparison_chart] builds, whatever it does with it. *)
Definition comparison_chart (df_combined : DataFrame) (stock_code : Z)
    (period_type : string) : LayerChart :=
  let base := encode (alt_Chart df_combined)
    {| enc_x := mkChannel "trade_date" "交易日期";
       enc_y := mkChannel "close" "收盘价";
       enc_color := mkChannel "type" "数据状态";
       enc_tooltip :=
         [ mkTooltip "trade_date" "日期" (Some "%Y-%m-%d");
           mkTooltip "close" "收盘价" (Some ".2f");
           mkTooltip "type" "状态" None ] |} in
  interactive (layer (properties (mark_line base) (chart_title_of stock_code period_type))
                     (mark_point base (6 # 10) 30)).

(** The class of the exception a run ended with, if it ended with one. *)
Definition error_class {A} (r : result A) : option ExnClass :=
  match r with
  | Ok _ => None
  | Raise e => Some (exn_class e)
  end.

(** ** The loader as a decision list

    [load_body] written out as the sequence of tests it performs, with the
    lookups that cannot fail after the column check removed.
    [load_body_cases] below proves the two equal. *)

(** The table of a run that gets through: the retained rows of the
    unprocessed file, then those of the processed file. *)
Definition combined_table (raw_rows : list (gmap string Cell)) (raw_dates : list Cell)
    (processed_rows : list (gmap string Cell)) (processed_dates : list Cell)
    : DataFrame :=
  concat_ignore_index
    [ {| columns := plot_columns; rows := plot_rows "处理前" raw_rows raw_dates |};
      {| columns := plot_columns;
         rows := plot_rows "处理后" processed_rows processed_dates |} ].

(** How the run ends once both files are read. *)
Definition load_frames (env : Env) (df_processed df_unprocessed : DataFrame)
    (stock_code : Z) : result DataFrame :=
  match missing_columns df_processed, missing_columns df_unprocessed with
  | _ :: _, _ =>
      Raise (mkExn ValueError
        ("处理后数据" +:+ "缺少必要的列: " +:+ repr_list (missing_columns df_processed)))
  | [], _ :: _ =>
      Raise (mkExn ValueError
        ("处理前数据" +:+ "缺少必要的列: " +:+ repr_list (missing_columns df_unprocessed)))
  | [], [] =>
      match matching df_processed stock_code, matching df_unprocessed stock_code with
      | [], _ =>
          Raise (mkExn ValueError ("在处理后数据中未找到股票代码 " +:+ pretty stock_code))
      | _ :: _, [] =>
          Raise (mkExn ValueError ("在处理前数据中未找到股票代码 " +:+ pretty stock_code))
      | _ :: _, _ :: _ =>
          processed_dates ←
            pd_to_datetime env (trade_dates (matching df_processed stock_code));
          raw_dates ←
            pd_to_datetime env (trade_dates (matching df_unprocessed stock_code));
          mret (combined_table (matching df_unprocessed stock_code) raw_dates
                  (matching df_processed stock_code) processed_dates)
      end
  end.

Definition load_cases (env : Env) (processed_file unprocessed_file : string)
    (stock_code : Z) : IO DataFrame :=
  if negb (path_exists env processed_file) then
    mkIO [EvPathExists processed_file]
      (Raise (mkExn FileNotFoundError ("处理后的数据文件不存在: " +:+ processed_file)))
  else if negb (path_exists env unprocessed_file) then
    mkIO [EvPathExists processed_file; EvPathExists unprocessed_file]
      (Raise (mkExn FileNotFoundError ("处理前的数据文件不存在: " +:+ unprocessed_file)))
  else
    match read_csv env processed_file with
    | Raise e =>
        mkIO [EvPathExists processed_file; EvPathExists unprocessed_file;
              EvReadCsv processed_file] (Raise e)
    | Ok df_processed =>
        mkIO [EvPathExists processed_file; EvPathExists unprocessed_file;
              EvReadCsv processed_file; EvReadCsv unprocessed_file]
          (df_unprocessed ← read_csv env unprocessed_file;
           load_frames env df_processed df_unprocessed stock_code)
    end.

(** What the [except] clause adds to a run of the body. *)
Definition logged {A} (body : IO A) : IO A :=
  match outcome body with
  | Ok _ => body
  | Raise e =>
      mkIO (trace body ++ [EvPrint ("数据加载和处理过程中出现错误: " +:+ exn_msg e)])
           (Raise e)
  end.

(** ** A sample world

    Two small files in the shape of the scenario the specification
    describes, one file without a [close] column, one with a date that is
    no date and one with dates in two formats; a conversion of date
    columns that takes the format of a column from its first value; a
    [save] that always works. *)

Module Sample.

Definition digit_of (a : Ascii.ascii) : option Z :=
  let n := Z.of_nat (Ascii.nat_of_ascii a) in
  if (48 <=? n) && (n <=? 57) then Some (n - 48) else None.

Fixpoint number_of (acc : Z) (s : string) : option Z :=
  match s with
  | EmptyString => Some acc
  | String a s' => d ← digit_of a; number_of (10 * acc + d) s'
  end.

Definition not_a_date : Exn :=
  mkExn (LibraryError "DateParseError") "Unknown datetime string format".

Definition format_mismatch : Exn :=
  mkExn ValueError "time data doesn't match format".

(** A date written year, month, day with [sep] between them. *)
Definition date_with (sep s : string) : option Timestamp :=
  match number_of 0 (String.substring 0 4 s), number_of 0 (String.substring 5 2 s),
        number_of 0 (String.substring 8 2 s) with
  | Some y, Some m, Some d =>
      if bool_decide (String.length s = 10%nat
                      ∧ String.substring 4 1 s = sep ∧ String.substring 7 1 s = sep
                      ∧ 1 ≤ m ≤ 12 ∧ 1 ≤ d ≤ 31)
      then Some (Date y m d) else None
  | _, _, _ => None
  end.

(** The format of the column, guessed from its first string as pandas
    does: dashes or slashes. *)
Fixpoint guess_separator (series : list Cell) : option string :=
  match series with
  | [] => None
  | CStr s :: _ =>
      match date_with "-" s, date_with "/" s with
      | Some _, _ => Some "-"
      | None, Some _ => Some "/"
      | None, None => None
      end
  | _ :: series' => guess_separator series'
  end.

(** One value in the format of the column. *)
Definition convert (sep : option string) (c : Cell) : result Timestamp :=
  match c with
  | CNaN => Ok NaT
  | CTime t => Ok t
  | CStr s =>
      match sep with
      | Some sep =>
          match date_with sep s with
          | Some t => Ok t
          | None => Raise format_mismatch
          end
      | None => Raise not_a_date
      end
  | _ => Raise not_a_date
  end.

Fixpoint convert_all (sep : option string) (series : list Cell)
    : result (list Timestamp) :=
  match series with
  | [] => Ok []
  | c :: series' =>
      t ← convert sep c;
      ts ← convert_all sep series';
      mret (t :: ts)
  end.

(** The conversion of a column: one format for all its values. *)
Definition iso_dates (series : list Cell) : result (list Timestamp) :=
  convert_all (guess_separator series) series.

Definition price_row (code : Z) (date : string) (close : Q) : gmap string Cell :=
  {[ "stock_code" := CInt code; "trade_date" := CStr date;
     "close" := CFloat close; "volume" := CInt 1000 ]}.

Definition price_columns : list string :=
  ["stock_code"; "trade_date"; "close"; "volume"].

(** The unprocessed file: two rows of 920225 around a row of another
    stock whose date is not a date. *)
Definition raw : DataFrame :=
  {| columns := price_columns;
     rows := [ price_row 920225 "2024-01-01" (105 # 10);
               price_row 600000 "pending" (7 # 1);
               price_row 920225 "2024-01-08" (110 # 10) ] |}.

Definition processed : DataFrame :=
  {| columns := price_columns;
     rows := [ price_row 920225 "2024-01-01" (104 # 10);
               price_row 920225 "2024-01-08" (109 # 10);
               price_row 600000 "2024-01-08" (7 # 1) ] |}.

Definition no_close : DataFrame :=
  {| columns := ["stock_code"; "trade_date"];
     rows := [ {[ "stock_code" := CInt 920225; "trade_date" := CStr "2024-01-01" ]} ] |}.

Definition bad_date : DataFrame :=
  {| columns := price_columns;
     rows := [ price_row 920225 "2024-01-01" (104 # 10);
               price_row 920225 "2024-13-45" (109 # 10) ] |}.

(** [raw.csv] with another date in the row of the other stock. *)
Definition raw_dated : DataFrame :=
  {| columns := price_columns;
     rows := [ price_row 920225 "2024-01-01" (105 # 10);
               price_row 600000 "2024-01-02" (7 # 1);
               price_row 920225 "2024-01-08" (110 # 10) ] |}.

(** Two dates of 920225, each in a format of its own. *)
Definition mixed_formats : DataFrame :=
  {| columns := price_columns;
     rows := [ price_row 920225 "2024-01-01" (104 # 10);
               price_row 920225 "2024/01/08" (109 # 10) ] |}.

Definition files : gmap string DataFrame :=
  {[ "raw.csv" := raw; "processed.csv" := processed;
     "no_close.csv" := no_close; "bad_date.csv" := bad_date;
     "raw_dated.csv" := raw_dated; "mixed_formats.csv" := mixed_formats ]}.

Definition world : Env :=
  {| path_exists := λ path, bool_decide (is_Some (files !! path));
     read_csv := λ path,
       match files !! path with
       | Some df => Ok df
       | None => Raise (mkExn FileNotFoundError path)
       end;
     to_datetime := iso_dates;
     save_chart := λ _ _, Ok () |}.

(** A conversion that never raises: what does not convert becomes
    [NaT]. *)
Definition lenient_dates (series : list Cell) : result (list Timestamp) :=
  match iso_dates series with
  | Ok stamps => Ok stamps
  | Raise _ => Ok ((λ _, NaT) <$> series)
  end.

(** The table the scenario expects. *)
Definition plot_record (date : Timestamp) (close : Q) (tag : string) : gmap string Cell :=
  {[ "trade_date" := CTime date; "close" := CFloat close; "type" := CStr tag ]}.

Definition combined : DataFrame :=
  {| columns := plot_columns;
     rows := [ plot_record (Date 2024 1 1) (105 # 10) "处理前";
               plot_record (Date 2024 1 8) (110 # 10) "处理前";
               plot_record (Date 2024 1 1) (104 # 10) "处理后";
               plot_record (Date 2024 1 8) (109 # 10) "处理后" ] |}.

End Sample.

(** ** More vocabulary *)

(** The paths handed to [pd.read_csv], in order. *)
Definition read_files (t : list Event) : list string :=
  omap (λ ev, match ev with EvReadCsv path => Some path | _ => None end) t.

(** The lines printed, in order. *)
Definition printed (t : list Event) : list string :=
  omap (λ ev, match ev with EvPrint line => Some line | _ => None end) t.

(** The same world with other file contents. *)
Definition with_reader (env : Env) (reader : string → result DataFrame) : Env :=
  {| path_exists := path_exists env; read_csv := reader;
     to_datetime := to_datetime env; save_chart := save_chart env |}.

(** What a row holds under the three required columns. *)
Definition required_part (r : gmap string Cell) : gmap string Cell :=
  restrict required_columns r.

(** The two messages the entry point frames a run with (lines 174, 192). *)
Definition started (stock_code : Z) (period_type : string) : string :=
  "开始处理股票 " +:+ pretty stock_code +:+ " 的" +:+ period_type +:+ "数据对比...".

Definition finished (stock_code : Z) (period_type : string) : string :=
  "股票 " +:+ pretty stock_code +:+ " 的" +:+ period_type +:+ "数据对比图表生成完成！".

(** The path the entry point hands to the renderer. *)
Definition output_path (stock_code : Z) (period_type : string)
    (output_file : option string) : string :=
  default (generated_output_file stock_code period_type) output_file.

(** ** The sample files with more columns

    The rows of the sample files with another [volume] and a [type] column
    of their own, and a world in which [chart.save] fails. *)

Module Annotated.

Definition annotate (r : gmap string Cell) : gmap string Cell :=
  <["type" := CStr "old"]> (<["volume" := CInt 0]> r).

Definition raw : DataFrame :=
  {| columns := "type" :: Sample.price_columns;
     rows := annotate <$> rows Sample.raw |}.

Definition processed : DataFrame :=
  {| columns := "type" :: Sample.price_columns;
     rows := annotate <$> rows Sample.processed |}.

Definition reader (path : string) : result DataFrame :=
  if String.eqb path "raw.csv" then Ok raw
  else if String.eqb path "processed.csv" then Ok processed
  else read_csv Sample.world path.

Definition disk_full : Exn := mkExn (LibraryError "OSError") "No space left on device".

Definition garbled : Exn :=
  mkExn (LibraryError "ParserError") "Error tokenizing data".

(** [raw.csv] is there and cannot be parsed. *)
Definition garbled_reader (path : string) : result DataFrame :=
  if String.eqb path "raw.csv" then Raise garbled
  else read_csv Sample.world path.

Definition read_only_world : Env :=
  {| path_exists := path_exists Sample.world;
     read_csv := read_csv Sample.world;
     to_datetime := to_datetime Sample.world;
     save_chart := λ _ _, Raise disk_full |}.

End Annotated.

(** ** Files with float and integer columns

    Two files whose [stock_code] column holds a missing value, which makes
    it float64, beside the code 2^53; and a processed file whose [close]
    is an integer, where the one of [raw.csv] is a float. *)

Module Float64.

Definition code_row (date : string) (close : Q) : gmap string Cell :=
  {[ "stock_code" := CFloat (inject_Z 9007199254740992);
     "trade_date" := CStr date; "close" := CFloat close ]}.

Definition blank_row : gmap string Cell :=
  {[ "stock_code" := CNaN; "trade_date" := CStr "2024-01-01";
     "close" := CFloat (1 # 1) ]}.

Definition raw : DataFrame :=
  {| columns := ["stock_code"; "trade_date"; "close"];
     rows := [ code_row "2024-01-01" (105 # 10); blank_row ] |}.

Definition processed : DataFrame :=
  {| columns := ["stock_code"; "trade_date"; "close"];
     rows := [ code_row "2024-01-01" (104 # 10); blank_row ] |}.

Definition reader (path : string) : result DataFrame :=
  if String.eqb path "raw.csv" then Ok raw
  else if String.eqb path "processed.csv" then Ok processed
  else read_csv Sample.world path.

Definition world : Env := with_reader Sample.world reader.

Definition whole : DataFrame :=
  {| columns := ["stock_code"; "trade_date"; "close"];
     rows := [ {[ "stock_code" := CInt 920225; "trade_date" := CStr "2024-01-01";
                  "close" := CInt 10 ]} ] |}.

Definition whole_reader (path : string) : result DataFrame :=
  if String.eqb path "processed.csv" then Ok whole
  else read_csv Sample.world path.

Definition whole_world : Env := with_reader Sample.world whole_reader.

End Float64.

(** * Properties *)

(** The scenario of the specification, run. *)
Example scenario_load :
  load_and_prepare_data Sample.world "processed.csv" "raw.csv" 920225 "周线"
  = mkIO [EvPathExists "processed.csv"; EvPathExists "raw.csv";
          EvReadCsv "processed.csv"; EvReadCsv "raw.csv"]
         (Ok Sample.combined).
Proof. vm_compute. reflexivity. Qed.

(** ** Stepping through [IO] computations *)

(** Closed membership facts about lists of column labels. *)
Ltac labels := apply (bool_decide_unpack _); vm_compute; exact I.

Ltac io_simpl :=
  cbn [mbind IO_bind mret IO_ret result_bind result_ret when lift raise for_each
       trace outcome app negb try_except print os_path_exists pd_read_csv
       chart_save].

(** ** Data frame lemmas *)

Lemma missing_columns_nil df :
  missing_columns df = [] →
  has_column df "stock_code" = true ∧ has_column df "trade_date" = true
  ∧ has_column df "close" = true.
Proof.
  unfold missing_columns, required_columns. cbn.
  destruct (has_column df "stock_code"), (has_column df "trade_date"),
    (has_column df "close"); cbn; intros; try discriminate; intuition congruence.
Qed.

Lemma select_eq_stock_code df code :
  has_column df "stock_code" = true →
  select_eq df "stock_code" code
  = Ok {| columns := columns df; rows := matching df code |}.
Proof. intros H. unfold select_eq. by rewrite H. Qed.

Lemma empty_selected df col rs :
  has_column df col = true →
  empty {| columns := columns df; rows := rs |}
  = match rs with [] => true | _ :: _ => false end.
Proof.
  unfold has_column, empty. intros H%bool_decide_eq_true. cbn.
  destruct (columns df); [by apply elem_of_nil in H | done].
Qed.

Lemma getitem_trade_date df rs :
  has_column df "trade_date" = true →
  getitem {| columns := columns df; rows := rs |} "trade_date" = Ok (trade_dates rs).
Proof. unfold getitem, has_column. cbn. by intros ->. Qed.

Lemma add_label_same (col : string) cols : col ∈ add_label col cols.
Proof.
  unfold add_label. case_bool_decide; [done|].
  apply elem_of_app. right. by apply list_elem_of_singleton.
Qed.

Lemma add_label_mono (c col : string) cols : c ∈ cols → c ∈ add_label col cols.
Proof.
  intros H. unfold add_label. case_bool_decide; [done|].
  apply elem_of_app. by left.
Qed.

Lemma plot_rows_eq tag (rs : list (gmap string Cell)) (ds : list Cell) :
  restrict plot_columns <$>
    ((λ r, <["type" := CStr tag]> r) <$> assign "trade_date" rs ds)
  = plot_rows tag rs ds.
Proof.
  revert ds. induction rs as [|r rs IH]; intros ds; cbn; [done|].
  by rewrite <- IH.
Qed.

(** After the date and the tag are set, the projection on the three plot
    columns cannot fail. *)
Lemma plot_frame cols rs ds tag :
  bool_decide ("close" ∈ cols) = true →
  getitem_list
    (setitem_scalar (setitem (mkDataFrame cols rs) "trade_date" ds) "type" (CStr tag))
    ["trade_date"; "close"; "type"]
  = Ok {| columns := plot_columns; rows := plot_rows tag rs ds |}.
Proof.
  intros Hc%bool_decide_eq_true.
  unfold getitem_list, has_column, setitem_scalar, setitem.
  cbn [columns rows List.filter].
  set (cols' := add_label "type" (add_label "trade_date" cols)).
  assert (H1 : bool_decide ("trade_date" ∈ cols') = true)
    by apply bool_decide_eq_true, add_label_mono, add_label_same.
  assert (H2 : bool_decide ("close" ∈ cols') = true)
    by (apply bool_decide_eq_true; by do 2 apply add_label_mono).
  assert (H3 : bool_decide ("type" ∈ cols') = true)
    by apply bool_decide_eq_true, add_label_same.
  rewrite H1, H2, H3. cbn [negb]. by rewrite plot_rows_eq.
Qed.

(** ** The loader is its decision list *)

Lemma load_body_cases env pf uf code period :
  load_body env pf uf code period = load_cases env pf uf code.
Proof.
  unfold load_body, load_cases. io_simpl.
  destruct (path_exists env pf); io_simpl; [|done].
  destruct (path_exists env uf); io_simpl; [|done].
  destruct (read_csv env pf) as [dfp|e]; io_simpl; [|done].
  destruct (read_csv env uf) as [dfu|e]; io_simpl; [|done].
  unfold load_frames, check_required_columns. fold (missing_columns dfp) (missing_columns dfu).
  destruct (missing_columns dfp) eqn:Mp; io_simpl; [|done].
  destruct (missing_columns dfu) eqn:Mu; io_simpl; [|done].
  apply missing_columns_nil in Mp as (Hp1 & Hp2 & Hp3).
  apply missing_columns_nil in Mu as (Hu1 & Hu2 & Hu3).
  rewrite !select_eq_stock_code by done. io_simpl.
  rewrite (empty_selected dfp "close"), (empty_selected dfu "close") by done.
  rewrite !getitem_trade_date by done.
  destruct (matching dfp code) as [|rp rsp] eqn:Ep; io_simpl; [done|].
  destruct (matching dfu code) as [|ru rsu] eqn:Eu; io_simpl; [done|].
  destruct (pd_to_datetime env (trade_dates (rp :: rsp))) as [dp|e]; io_simpl; [|done].
  destruct (pd_to_datetime env (trade_dates (ru :: rsu))) as [du|e]; io_simpl; [|done].
  rewrite !plot_frame by done. io_simpl. reflexivity.
Qed.

Lemma load_and_prepare_data_cases env pf uf code period :
  load_and_prepare_data env pf uf code period = logged (load_cases env pf uf code).
Proof.
  unfold load_and_prepare_data, logged. rewrite load_body_cases.
  unfold try_except. by destruct (outcome (load_cases env pf uf code)).
Qed.

(** ** Date conversion *)

Lemma length_over_index series stamps :
  length (over_index series stamps) = length series.
Proof.
  revert stamps. induction series as [|c series IH]; intros stamps; [done|].
  cbn. by rewrite IH.
Qed.

Lemma over_index_stamps series stamps :
  Forall (λ d, ∃ t, d = CTime t) (over_index series stamps).
Proof.
  revert stamps. induction series as [|c series IH]; intros stamps; cbn;
    constructor; eauto.
Qed.

Lemma pd_to_datetime_Ok env series ds :
  pd_to_datetime env series = Ok ds ↔
  ∃ stamps, to_datetime env series = Ok stamps ∧ ds = over_index series stamps.
Proof.
  unfold pd_to_datetime. destruct (to_datetime env series) as [stamps|e]; cbn.
  - split; [intros [= <-]; eauto | by intros (? & [= <-] & ->)].
  - split; [done | by intros (? & ? & _)].
Qed.

Lemma pd_to_datetime_Raise env series e :
  pd_to_datetime env series = Raise e ↔ to_datetime env series = Raise e.
Proof.
  unfold pd_to_datetime. destruct (to_datetime env series) as [stamps|e']; cbn;
    split; intros H; try done; by injection H as ->.
Qed.

Lemma pd_to_datetime_is_ok env series :
  is_ok (pd_to_datetime env series) = is_ok (to_datetime env series).
Proof.
  unfold pd_to_datetime. destruct (to_datetime env series) as [stamps|e']; done.
Qed.

Lemma pd_to_datetime_length env series ds :
  pd_to_datetime env series = Ok ds → length ds = length series.
Proof.
  intros (stamps & _ & ->)%pd_to_datetime_Ok. apply length_over_index.
Qed.

Lemma pd_to_datetime_stamps env series ds :
  pd_to_datetime env series = Ok ds → Forall (λ d, ∃ t, d = CTime t) ds.
Proof.
  intros (stamps & _ & ->)%pd_to_datetime_Ok. apply over_index_stamps.
Qed.


Lemma pd_to_datetime_with_reader env reader series :
  pd_to_datetime (with_reader env reader) series = pd_to_datetime env series.
Proof. reflexivity. Qed.



(** ** Records of the plot table *)

Lemma restrict_lookup_in cols (r : gmap string Cell) col :
  col ∈ cols → restrict cols r !! col = r !! col.
Proof.
  intros Hin. unfold restrict. destruct (r !! col) as [c|] eqn:Hc.
  - by apply map_lookup_filter_Some.
  - apply map_lookup_filter_None. by left.
Qed.

Lemma restrict_lookup_notin cols (r : gmap string Cell) col :
  col ∉ cols → restrict cols r !! col = None.
Proof.
  intros Hin. unfold restrict. apply map_lookup_filter_None. right.
  intros c _. done.
Qed.

Lemma plot_row_type tag r d : plot_row tag r d !! "type" = Some (CStr tag).
Proof.
  unfold plot_row. rewrite restrict_lookup_in by labels.
  by rewrite lookup_insert_eq.
Qed.

Lemma plot_row_trade_date tag r d : plot_row tag r d !! "trade_date" = Some d.
Proof.
  unfold plot_row. rewrite restrict_lookup_in by labels.
  by rewrite lookup_insert_ne, lookup_insert_eq.
Qed.

Lemma plot_row_close tag r d : plot_row tag r d !! "close" = r !! "close".
Proof.
  unfold plot_row. rewrite restrict_lookup_in by labels.
  by rewrite !lookup_insert_ne.
Qed.

Lemma plot_row_stock_code tag r d : plot_row tag r d !! "stock_code" = None.
Proof. unfold plot_row. apply restrict_lookup_notin. labels. Qed.

Lemma length_plot_rows tag rs ds : length (plot_rows tag rs ds) = length rs.
Proof.
  revert ds. induction rs as [|r rs IH]; intros ds; [done|]. cbn. by rewrite IH.
Qed.

Lemma plot_rows_zip tag rs ds :
  length ds = length rs →
  Forall (λ d, ∃ t, d = CTime t) ds →
  Forall2 (λ rec rd, rec = plot_row tag rd.1 rd.2 ∧ ∃ t, rd.2 = CTime t)
    (plot_rows tag rs ds) (zip rs ds).
Proof.
  revert ds. induction rs as [|r rs IH]; intros [|d ds] Hlen Hds;
    try discriminate; cbn; [constructor|].
  apply Forall_cons in Hds as [Hd Hds].
  constructor; [by split | apply IH; [cbn in Hlen; lia | done]].
Qed.

(** Every plot row of a converted column holds a timestamp. *)
Lemma plot_rows_stamped env tag rs ds :
  pd_to_datetime env (trade_dates rs) = Ok ds →
  Forall (λ rec, ∃ r t, rec = plot_row tag r (CTime t)) (plot_rows tag rs ds).
Proof.
  intros Hds.
  pose proof (pd_to_datetime_length _ _ _ Hds) as Hlen.
  unfold trade_dates in Hlen. rewrite length_fmap in Hlen.
  pose proof (plot_rows_zip tag rs ds Hlen (pd_to_datetime_stamps _ _ _ Hds)) as H.
  eapply Forall2_Forall_l; [exact H|].
  apply Forall_forall. intros [r d] _ rec [-> [t Ht]]. cbn in *. subst d. eauto.
Qed.

(** ** Stacking the two frames *)

Lemma to_float64_idemp c : to_float64 (to_float64 c) = to_float64 c.
Proof.
  destruct c as [|z| | | |]; try done. unfold to_float64.
  destruct (float64_of_Z z) eqn:E; [done | by rewrite E].
Qed.

Lemma casted_refl r : casted r r.
Proof. intros col. by left. Qed.

Lemma casted_trans r1 r2 r3 : casted r1 r2 → casted r2 r3 → casted r1 r3.
Proof.
  intros H12 H23 col. destruct (H12 col) as [E12|E12], (H23 col) as [E23|E23];
    rewrite E23, E12; [by left | by right | by right |].
  right. destruct (r1 !! col); cbn; [|done]. by rewrite to_float64_idemp.
Qed.

Lemma casted_alter col r : casted r (alter to_float64 col r).
Proof.
  intros c. destruct (decide (col = c)) as [->|Hne].
  - right. apply lookup_alter_eq.
  - left. by apply lookup_alter_ne.
Qed.

Lemma upcast_casted col rs : Forall2 casted rs (upcast col rs).
Proof.
  unfold upcast. destruct (_ && _).
  - induction rs as [|r rs IH]; cbn; constructor; [apply casted_alter | done].
  - induction rs as [|r rs IH]; constructor; [apply casted_refl | done].
Qed.

Lemma foldr_upcast_casted cols rs : Forall2 casted rs (foldr upcast rs cols).
Proof.
  induction cols as [|col cols IH]; cbn.
  - induction rs as [|r rs IH]; constructor; [apply casted_refl | done].
  - eapply Forall2_trans; [apply casted_trans | exact IH | apply upcast_casted].
Qed.

(** A value that is no integer stays what it is. *)
Lemma casted_lookup_Some r r' col v :
  casted r r' → r !! col = Some v → to_float64 v = v → r' !! col = Some v.
Proof. intros H Hv Hf. destruct (H col) as [->| ->]; rewrite Hv; cbn; congruence. Qed.

Lemma casted_lookup_None r r' col :
  casted r r' → r !! col = None → r' !! col = None.
Proof. intros H Hv. destruct (H col) as [->| ->]; by rewrite Hv. Qed.

Lemma casted_cell r r' col :
  casted r r' → cell r' col = cell r col ∨ cell r' col = to_float64 (cell r col).
Proof.
  intros H. unfold cell. destruct (H col) as [->| ->]; [by left|].
  right. by destruct (r !! col).
Qed.

Lemma casted_plot_row tag r t rec :
  casted (plot_row tag r (CTime t)) rec → made_from tag rec r (CTime t).
Proof.
  intros H. repeat split.
  - by apply (casted_lookup_Some _ _ _ _ H (plot_row_type tag r (CTime t))).
  - by apply (casted_lookup_Some _ _ _ _ H (plot_row_trade_date tag r (CTime t))).
  - destruct (casted_cell _ _ "close" H) as [E|E]; [left | right];
      rewrite E; unfold cell; by rewrite plot_row_close.
  - apply (casted_lookup_None _ _ _ H), plot_row_stock_code.
Qed.

Lemma plot_columns_twice :
  remove_dups (concat (columns <$> [mkDataFrame plot_columns []; mkDataFrame plot_columns []]))
  = plot_columns.
Proof. reflexivity. Qed.

(** The stacked table is the two lists of plot rows, one after the other,
    each row as [pd.concat] leaves it. *)
Lemma combined_rows ru du rp dp :
  columns (combined_table ru du rp dp) = plot_columns
  ∧ Forall2 casted (plot_rows "处理前" ru du ++ plot_rows "处理后" rp dp)
      (rows (combined_table ru du rp dp)).
Proof.
  unfold combined_table, concat_ignore_index.
  cbn [columns rows fmap list_fmap concat]. split; [reflexivity|].
  rewrite (app_nil_r (plot_rows "处理后" rp dp)). apply foldr_upcast_casted.
Qed.

Lemma combined_records env ru du rp dp :
  pd_to_datetime env (trade_dates ru) = Ok du →
  pd_to_datetime env (trade_dates rp) = Ok dp →
  ∃ raw_records processed_records,
    rows (combined_table ru du rp dp) = (raw_records ++ processed_records)%list
    ∧ length raw_records = length ru
    ∧ length processed_records = length rp
    ∧ Forall2 (λ rec rd, made_from "处理前" rec rd.1 rd.2) raw_records (zip ru du)
    ∧ Forall2 (λ rec rd, made_from "处理后" rec rd.1 rd.2) processed_records (zip rp dp).
Proof.
  intros Du Dp. destruct (combined_rows ru du rp dp) as [_ H].
  apply Forall2_app_inv_l in H as (raw_records & processed_records & Hu & Hp & ->).
  exists raw_records, processed_records. split; [done|].
  pose proof (pd_to_datetime_length _ _ _ Du) as Lu.
  pose proof (pd_to_datetime_length _ _ _ Dp) as Lp.
  unfold trade_dates in Lu, Lp. rewrite length_fmap in Lu, Lp.
  split; [by rewrite <- (Forall2_length _ _ _ Hu), length_plot_rows|].
  split; [by rewrite <- (Forall2_length _ _ _ Hp), length_plot_rows|].
  split.
  - eapply Forall2_trans;
      [| apply Forall2_flip, Hu
       | apply (plot_rows_zip "处理前" ru du Lu (pd_to_datetime_stamps _ _ _ Du))].
    intros rec rec0 [r d] Hc [-> [t ?]]. cbn in *. subst d.
    by apply casted_plot_row.
  - eapply Forall2_trans;
      [| apply Forall2_flip, Hp
       | apply (plot_rows_zip "处理后" rp dp Lp (pd_to_datetime_stamps _ _ _ Dp))].
    intros rec rec0 [r d] Hc [-> [t ?]]. cbn in *. subst d.
    by apply casted_plot_row.
Qed.

(** ** How a run of the loader ends *)

Section Loader.
Context (env : Env).

(** Both files there and readable: four calls, then [load_frames]. *)
Lemma load_read pf uf code period dfp dfu :
  path_exists env pf = true → path_exists env uf = true →
  read_csv env pf = Ok dfp → read_csv env uf = Ok dfu →
  load_and_prepare_data env pf uf code period
  = logged (mkIO [EvPathExists pf; EvPathExists uf; EvReadCsv pf; EvReadCsv uf]
              (load_frames env dfp dfu code)).
Proof.
  intros Hp Hu Rp Ru. rewrite load_and_prepare_data_cases.
  unfold load_cases. by rewrite Hp, Hu, Rp, Ru.
Qed.

Lemma load_outcome pf uf code period dfp dfu :
  path_exists env pf = true → path_exists env uf = true →
  read_csv env pf = Ok dfp → read_csv env uf = Ok dfu →
  outcome (load_and_prepare_data env pf uf code period)
  = load_frames env dfp dfu code.
Proof.
  intros Hp Hu Rp Ru. rewrite load_and_prepare_data_cases.
  unfold logged, load_cases. rewrite Hp, Hu, Rp, Ru. cbn.
  by destruct (load_frames env dfp dfu code).
Qed.

(** A run that returns a table found both files and read them. *)
Lemma load_Ok_inv pf uf code period table :
  outcome (load_and_prepare_data env pf uf code period) = Ok table →
  ∃ dfp dfu,
    path_exists env pf = true ∧ path_exists env uf = true
    ∧ read_csv env pf = Ok dfp ∧ read_csv env uf = Ok dfu
    ∧ load_frames env dfp dfu code = Ok table.
Proof.
  rewrite load_and_prepare_data_cases. unfold logged, load_cases.
  destruct (path_exists env pf); cbn; [|done].
  destruct (path_exists env uf); cbn; [|done].
  destruct (read_csv env pf) as [dfp|e]; cbn; [|done].
  destruct (read_csv env uf) as [dfu|e]; cbn; [|done].
  destruct (load_frames env dfp dfu code) eqn:E; cbn; [|done].
  intros [= <-]. by exists dfp, dfu.
Qed.

Lemma load_frames_Ok_inv dfp dfu code table :
  load_frames env dfp dfu code = Ok table →
  ∃ dp du,
    missing_columns dfp = [] ∧ missing_columns dfu = []
    ∧ matching dfp code ≠ [] ∧ matching dfu code ≠ []
    ∧ pd_to_datetime env (trade_dates (matching dfp code)) = Ok dp
    ∧ pd_to_datetime env (trade_dates (matching dfu code)) = Ok du
    ∧ table = combined_table (matching dfu code) du (matching dfp code) dp.
Proof.
  unfold load_frames.
  destruct (missing_columns dfp); [|done].
  destruct (missing_columns dfu); [|done].
  destruct (matching dfp code) as [|rp rsp]; [done|].
  destruct (matching dfu code) as [|ru rsu]; [done|].
  destruct (pd_to_datetime env (trade_dates (rp :: rsp))) as [dp|e]; [|done].
  destruct (pd_to_datetime env (trade_dates (ru :: rsu))) as [du|e]; [|done].
  intros [= <-]. by exists dp, du.
Qed.

Lemma load_frames_dates dfp dfu code :
  missing_columns dfp = [] → missing_columns dfu = [] →
  matching dfp code ≠ [] → matching dfu code ≠ [] →
  load_frames env dfp dfu code
  = (dp ← pd_to_datetime env (trade_dates (matching dfp code));
     du ← pd_to_datetime env (trade_dates (matching dfu code));
     mret (combined_table (matching dfu code) du (matching dfp code) dp)).
Proof.
  intros Mp Mu Np Nu. unfold load_frames. rewrite Mp, Mu.
  destruct (matching dfp code); [done|]. by destruct (matching dfu code).
Qed.

End Loader.

(** ** The claims about the loader *)

(** C1.  When both files exist and are read, both frames have the three
    required columns, both have rows for the requested stock code and
    [pd.to_datetime] converts the dates of those rows in each file,
    [load_and_prepare_data] returns a table, and the table has as many
    rows as the unprocessed frame has rows for the code plus as many as
    the processed frame has. *)
Theorem load_length env pf uf code period dfp dfu :
  path_exists env pf = true → path_exists env uf = true →
  read_csv env pf = Ok dfp → read_csv env uf = Ok dfu →
  missing_columns dfp = [] → missing_columns dfu = [] →
  matching dfp code ≠ [] → matching dfu code ≠ [] →
  is_ok (to_datetime env (trade_dates (matching dfp code))) = true →
  is_ok (to_datetime env (trade_dates (matching dfu code))) = true →
  ∃ table,
    outcome (load_and_prepare_data env pf uf code period) = Ok table
    ∧ len table = (length (matching dfu code) + length (matching dfp code))%nat.
Proof.
  intros Hp Hu Rp Ru Mp Mu Np Nu Dp Du.
  rewrite <- pd_to_datetime_is_ok in Dp, Du.
  destruct (pd_to_datetime env (trade_dates (matching dfp code))) as [dp|] eqn:Ep;
    [|done].
  destruct (pd_to_datetime env (trade_dates (matching dfu code))) as [du|] eqn:Eu;
    [|done].
  rewrite (load_outcome env pf uf code period dfp dfu) by done.
  rewrite load_frames_dates by done. rewrite Ep, Eu.
  cbn [mbind result_bind mret result_ret].
  eexists. split; [reflexivity|].
  destruct (combined_records env _ _ _ _ Eu Ep) as (raw & processed & E & Lu & Lp & _).
  unfold len. rewrite E, length_app. lia.
Qed.

Lemma load_length_witness :
  ∃ table,
    outcome (load_and_prepare_data Sample.world "processed.csv" "raw.csv"
               920225 "周线") = Ok table
    ∧ len table = (length (matching Sample.raw 920225)
                   + length (matching Sample.processed 920225))%nat.
Proof.
  apply (load_length Sample.world "processed.csv" "raw.csv" 920225 "周线"
           Sample.processed Sample.raw);
    try (vm_compute; reflexivity); vm_compute; discriminate.
Defined.

(** C2.  In the table a run returns, the records made from the unprocessed
    file come first and carry the tag of that file, the records made from
    the processed file follow and carry the other tag, and in each group
    the records stand one for one, in file order, for the rows of that file
    that have the requested code, each with the date [pd.to_datetime] gave
    for its row: nothing is sorted. *)
Theorem load_order env pf uf code period dfp dfu table :
  read_csv env pf = Ok dfp → read_csv env uf = Ok dfu →
  outcome (load_and_prepare_data env pf uf code period) = Ok table →
  ∃ raw_records processed_records raw_dates processed_dates,
    rows table = (raw_records ++ processed_records)%list
    ∧ pd_to_datetime env (trade_dates (matching dfu code)) = Ok raw_dates
    ∧ pd_to_datetime env (trade_dates (matching dfp code)) = Ok processed_dates
    ∧ length raw_records = length (matching dfu code)
    ∧ length processed_records = length (matching dfp code)
    ∧ Forall2 (λ rec rd, made_from "处理前" rec rd.1 rd.2)
        raw_records (zip (matching dfu code) raw_dates)
    ∧ Forall2 (λ rec rd, made_from "处理后" rec rd.1 rd.2)
        processed_records (zip (matching dfp code) processed_dates).
Proof.
  intros Rp Ru (dfp' & dfu' & _ & _ & Rp' & Ru' & H)%load_Ok_inv.
  rewrite Rp in Rp'. rewrite Ru in Ru'. injection Rp' as <-. injection Ru' as <-.
  apply load_frames_Ok_inv in H as (dp & du & _ & _ & _ & _ & Dp & Du & ->).
  destruct (combined_records env _ _ _ _ Du Dp)
    as (raw & processed & E & Lu & Lp & Fu & Fp).
  by exists raw, processed, du, dp.
Qed.

Lemma load_order_witness :
  ∃ raw_records processed_records raw_dates processed_dates,
    rows Sample.combined = (raw_records ++ processed_records)%list
    ∧ pd_to_datetime Sample.world (trade_dates (matching Sample.raw 920225))
      = Ok raw_dates
    ∧ pd_to_datetime Sample.world (trade_dates (matching Sample.processed 920225))
      = Ok processed_dates
    ∧ length raw_records = length (matching Sample.raw 920225)
    ∧ length processed_records = length (matching Sample.processed 920225)
    ∧ Forall2 (λ rec rd, made_from "处理前" rec rd.1 rd.2)
        raw_records (zip (matching Sample.raw 920225) raw_dates)
    ∧ Forall2 (λ rec rd, made_from "处理后" rec rd.1 rd.2)
        processed_records (zip (matching Sample.processed 920225) processed_dates).
Proof.
  apply (load_order Sample.world "processed.csv" "raw.csv" 920225 "周线"
           Sample.processed Sample.raw Sample.combined);
    vm_compute; reflexivity.
Defined.

(** An integer close beside float closes comes out of [pd.concat] as a
    float, in its place. *)
Example load_whole_close :
  (λ t, (λ r, r !! "close") <$> rows t)
    <$> (match outcome (load_and_prepare_data Float64.whole_world
                          "processed.csv" "raw.csv" 920225 "周线") with
         | Ok table => Some table
         | Raise _ => None
         end)
  = Some [Some (CFloat (105 # 10)); Some (CFloat (110 # 10)); Some (CFloat (10 # 1))].
Proof. vm_compute. reflexivity. Qed.






(** C4.  When both files exist and are read and one of the two frames
    lacks a required column, the run raises a [ValueError] whose message
    names the frame (the processed one if it lacks a column, the
    unprocessed one otherwise) and lists the required columns that frame
    lacks; the message is printed and no table is returned. *)
Theorem load_missing_columns env pf uf code period dfp dfu :
  path_exists env pf = true → path_exists env uf = true →
  read_csv env pf = Ok dfp → read_csv env uf = Ok dfu →
  missing_columns dfp ≠ [] ∨ missing_columns dfu ≠ [] →
  ∃ name df,
    ((name = "处理后数据" ∧ df = dfp)
     ∨ (name = "处理前数据" ∧ df = dfu ∧ missing_columns dfp = []))
    ∧ missing_columns df ≠ []
    ∧ load_and_prepare_data env pf uf code period
      = let msg := name +:+ "缺少必要的列: " +:+ repr_list (missing_columns df) in
        mkIO [EvPathExists pf; EvPathExists uf; EvReadCsv pf; EvReadCsv uf;
              EvPrint ("数据加载和处理过程中出现错误: " +:+ msg)]
             (Raise (mkExn ValueError msg)).
Proof.
  intros Hp Hu Rp Ru H.
  rewrite (load_read env pf uf code period dfp dfu) by done.
  unfold logged, load_frames. cbn [outcome trace].
  destruct (missing_columns dfp) as [|c cs] eqn:Mp.
  - destruct H as [H|H]; [done|].
    destruct (missing_columns dfu) as [|c cs] eqn:Mu; [done|].
    exists "处理前数据", dfu. rewrite Mu.
    split; [right; done|]. split; [done|]. reflexivity.
  - exists "处理后数据", dfp. rewrite Mp.
    split; [left; done|]. split; [done|]. reflexivity.
Qed.

Lemma load_missing_columns_witness :
  ∃ name df,
    ((name = "处理后数据" ∧ df = Sample.no_close)
     ∨ (name = "处理前数据" ∧ df = Sample.raw
        ∧ missing_columns Sample.no_close = []))
    ∧ missing_columns df ≠ []
    ∧ load_and_prepare_data Sample.world "no_close.csv" "raw.csv" 920225 "周线"
      = let msg := name +:+ "缺少必要的列: " +:+ repr_list (missing_columns df) in
        mkIO [EvPathExists "no_close.csv"; EvPathExists "raw.csv";
              EvReadCsv "no_close.csv"; EvReadCsv "raw.csv";
              EvPrint ("数据加载和处理过程中出现错误: " +:+ msg)]
             (Raise (mkExn ValueError msg)).
Proof.
  apply (load_missing_columns Sample.world "no_close.csv" "raw.csv" 920225 "周线"
           Sample.no_close Sample.raw);
    try (vm_compute; reflexivity).
  left. vm_compute. discriminate.
Defined.

(** What the run of the witness prints. *)
Example missing_close_message :
  outcome (load_and_prepare_data Sample.world "no_close.csv" "raw.csv" 920225 "周线")
  = Raise (mkExn ValueError "处理后数据缺少必要的列: ['close']").
Proof. vm_compute. reflexivity. Qed.

(** C5, as the code has it.  When both files exist and are read, both
    frames have the required columns and one of them has no row for the
    requested code, the run raises a [ValueError] - the class it raises for
    a missing column, not [FileNotFoundError] - whose message names the
    source (the processed one if it has no such row, the unprocessed one
    otherwise) and the code; no table is returned. *)
Theorem load_no_rows env pf uf code period dfp dfu :
  path_exists env pf = true → path_exists env uf = true →
  read_csv env pf = Ok dfp → read_csv env uf = Ok dfu →
  missing_columns dfp = [] → missing_columns dfu = [] →
  matching dfp code = [] ∨ matching dfu code = [] →
  ∃ source,
    ((source = "处理后" ∧ matching dfp code = [])
     ∨ (source = "处理前" ∧ matching dfu code = [] ∧ matching dfp code ≠ []))
    ∧ outcome (load_and_prepare_data env pf uf code period)
      = Raise (mkExn ValueError
                 ("在" +:+ source +:+ "数据中未找到股票代码 " +:+ pretty code))
    ∧ error_class (outcome (load_and_prepare_data env pf uf code period))
      ≠ Some FileNotFoundError.
Proof.
  intros Hp Hu Rp Ru Mp Mu H.
  rewrite (load_outcome env pf uf code period dfp dfu) by done.
  unfold load_frames. rewrite Mp, Mu.
  destruct (matching dfp code) as [|rp rsp] eqn:Ep.
  - exists "处理后". split; [left; done|]. split; [reflexivity | done].
  - destruct H as [H|H]; [done|]. rewrite H.
    exists "处理前". split; [right; done|]. split; [reflexivity | done].
Qed.

Lemma load_no_rows_witness :
  ∃ source,
    ((source = "处理后" ∧ matching Sample.processed 1 = [])
     ∨ (source = "处理前" ∧ matching Sample.raw 1 = []
        ∧ matching Sample.processed 1 ≠ []))
    ∧ outcome (load_and_prepare_data Sample.world "processed.csv" "raw.csv" 1 "周线")
      = Raise (mkExn ValueError
                 ("在" +:+ source +:+ "数据中未找到股票代码 " +:+ pretty 1))
    ∧ error_class
        (outcome (load_and_prepare_data Sample.world "processed.csv" "raw.csv" 1 "周线"))
      ≠ Some FileNotFoundError.
Proof.
  apply (load_no_rows Sample.world "processed.csv" "raw.csv" 1 "周线"
           Sample.processed Sample.raw);
    try (vm_compute; reflexivity).
  left. vm_compute. reflexivity.
Defined.

(** C5, as the claim has it, fails: in the sample world stock 1 has no row
    in the processed file, and the run ends with an exception of another
    class than the one a missing file gives. *)
Lemma zero_rows_is_not_the_missing_file_error :
  matching Sample.processed 1 = []
  ∧ error_class
      (outcome (load_and_prepare_data Sample.world "processed.csv" "raw.csv" 1 "周线"))
    = Some ValueError
  ∧ error_class
      (outcome (load_and_prepare_data Sample.world "nowhere.csv" "raw.csv" 1 "周线"))
    = Some FileNotFoundError
  ∧ ¬ ∃ msg,
        outcome (load_and_prepare_data Sample.world "processed.csv" "raw.csv" 1 "周线")
        = Raise (mkExn FileNotFoundError msg).
Proof.
  repeat split; try (vm_compute; reflexivity).
  intros [msg H]. vm_compute in H. discriminate.
Qed.



(** The date of the other stock in [raw.csv] is no date, and the run for
    920225 returns all the same, the very table it returns when that date
    is one; the second date of 920225 in [bad_date.csv] is no date, and
    the run raises what the conversion raises. *)
Example load_bad_date_elsewhere :
  is_ok (Sample.iso_dates [CStr "pending"]) = false
  ∧ outcome (load_and_prepare_data Sample.world "processed.csv" "raw.csv" 920225 "周线")
    = Ok Sample.combined
  ∧ outcome (load_and_prepare_data Sample.world "processed.csv" "raw_dated.csv"
               920225 "周线")
    = Ok Sample.combined.
Proof. repeat split; vm_compute; reflexivity. Qed.

Example load_bad_date_retained :
  outcome (load_and_prepare_data Sample.world "bad_date.csv" "raw.csv" 920225 "周线")
  = Raise Sample.format_mismatch.
Proof. vm_compute. reflexivity. Qed.

(** Two retained dates that convert each on its own and not together: the
    format of the column is the format of its first value. *)
Example load_mixed_formats :
  is_ok (Sample.iso_dates [CStr "2024-01-01"]) = true
  ∧ is_ok (Sample.iso_dates [CStr "2024/01/08"]) = true
  ∧ outcome (load_and_prepare_data Sample.world "mixed_formats.csv" "raw.csv"
               920225 "周线")
    = Raise Sample.format_mismatch.
Proof. repeat split; vm_compute; reflexivity. Qed.

(** C9.  The loader takes [period_type] and never looks at it: two runs
    that differ in it only are the same run - same calls, same table or
    same exception. *)
Theorem load_ignores_period_type env pf uf code period1 period2 :
  load_and_prepare_data env pf uf code period1
  = load_and_prepare_data env pf uf code period2.
Proof. reflexivity. Qed.

(** ** The claims about the entry point and the renderer *)

(** C7.  With a period label that is neither of the two recognized ones
    the entry point raises a [ValueError] at once: the trace is empty, so
    no file was looked for, opened or written and nothing was printed. *)
Theorem compare_stock_data_rejects_period env code pf uf period out :
  period ∉ ["周线"; "日线"] →
  compare_stock_data env code pf uf period out
  = mkIO [] (Raise (mkExn ValueError "period_type 必须是 '周线' 或 '日线'")).
Proof.
  intros H. unfold compare_stock_data.
  by rewrite (bool_decide_eq_false_2 _ H).
Qed.

Lemma compare_stock_data_rejects_period_witness :
  compare_stock_data Sample.world 920225 "processed.csv" "raw.csv" "月线"
    (Some "chart.json")
  = mkIO [] (Raise (mkExn ValueError "period_type 必须是 '周线' 或 '日线'")).
Proof.
  apply (compare_stock_data_rejects_period Sample.world 920225 "processed.csv"
           "raw.csv" "月线" (Some "chart.json")).
  labels.
Defined.

Example load_other_converter :
  Sample.lenient_dates [CStr "pending"] ≠ Sample.iso_dates [CStr "pending"]
  ∧ load_and_prepare_data (with_converter Sample.world Sample.lenient_dates)
      "processed.csv" "raw.csv" 920225 "周线"
    = load_and_prepare_data Sample.world "processed.csv" "raw.csv" 920225 "周线".
Proof. split; [vm_compute; discriminate | vm_compute; reflexivity]. Qed.

(** The renderer, by the test at line 131. *)
Lemma create_comparison_chart_cases env df code period out :
  create_comparison_chart env df code period out
  = let chart := comparison_chart df code period in
    if truthy out then
      let path := default "" out in
      match save_chart env chart path with
      | Ok _ => mkIO [EvSave path chart; EvPrint ("图表已保存至: " +:+ path)] (Ok chart)
      | Raise e => mkIO [EvSave path chart] (Raise e)
      end
    else mkIO [] (Ok chart).
Proof.
  unfold create_comparison_chart. fold (comparison_chart df code period).
  cbn zeta. destruct (truthy out); io_simpl; [|done].
  by destruct (save_chart env (comparison_chart df code period) (default "" out)).
Qed.

(** A run of the loader that returns made its four calls and no other. *)
Lemma load_Ok_trace env pf uf code period table :
  outcome (load_and_prepare_data env pf uf code period) = Ok table →
  trace (load_and_prepare_data env pf uf code period)
  = [EvPathExists pf; EvPathExists uf; EvReadCsv pf; EvReadCsv uf].
Proof.
  intros H. destruct (load_Ok_inv env _ _ _ _ _ H) as (dfp & dfu & Hp & Hu & Rp & Ru & F).
  rewrite (load_read env pf uf code period dfp dfu) by done.
  unfold logged. cbn [outcome]. by rewrite F.
Qed.



Example create_comparison_chart_with_path :
  create_comparison_chart Sample.world Sample.combined 920225 "周线" (Some "chart.json")
  = mkIO [EvSave "chart.json" (comparison_chart Sample.combined 920225 "周线");
          EvPrint "图表已保存至: chart.json"]
         (Ok (comparison_chart Sample.combined 920225 "周线")).
Proof. vm_compute. reflexivity. Qed.

Example create_comparison_chart_without_path :
  trace (create_comparison_chart Sample.world Sample.combined 920225 "周线" None) = []
  ∧ trace (create_comparison_chart Sample.world Sample.combined 920225 "周线" (Some ""))
    = [].
Proof. split; vm_compute; reflexivity. Qed.

(** C10, as the code has it.  A run of the entry point that returns a
    chart has called [chart.save] exactly once, with that chart, on the
    path the caller gave or, when the caller gave [None], on
    [stock_{code}_{period}_comparison_chart.json] - unless the caller gave
    the empty string, which the entry point passes on as it is and for
    which the renderer saves nothing. *)
Theorem compare_stock_data_writes env code pf uf period out chart :
  outcome (compare_stock_data env code pf uf period out) = Ok chart →
  let run := compare_stock_data env code pf uf period out in
  let path :=
    default ("stock_" +:+ pretty code +:+ "_" +:+ period +:+ "_comparison_chart.json")
      out in
  (out ≠ Some "" → saved_files (trace run) = [path] ∧ EvSave path chart ∈ trace run)
  ∧ (out = Some "" → saved_files (trace run) = []).
Proof.
  cbn zeta. unfold compare_stock_data.
  destruct (bool_decide (period ∈ ["周线"; "日线"])); io_simpl; [|done].
  destruct (load_and_prepare_data env pf uf code period) as [tl [table|e]] eqn:L;
    io_simpl; [|done].
  assert (Hl : tl = [EvPathExists pf; EvPathExists uf; EvReadCsv pf; EvReadCsv uf]).
  { pose proof (load_Ok_trace env pf uf code period table) as T.
    rewrite L in T. exact (T eq_refl). }
  subst tl. rewrite create_comparison_chart_cases. cbn zeta.
  destruct out as [p|]; cbn [truthy].
  - change (default _ (Some p)) with p.
    destruct (String.eqb_spec p "") as [->|Hne]; cbn [negb]; io_simpl.
    + intros _. split; [done|]. intros _. reflexivity.
    + destruct (save_chart env (comparison_chart table code period) p);
        io_simpl; [|done].
      intros [= <-]. split; [|congruence]. intros _. split; [reflexivity|].
      do 5 right. left.
  - change (default ?x None) with x.
    unfold generated_output_file. cbn [String.append String.eqb Ascii.eqb negb].
    destruct (save_chart env (comparison_chart table code period) _);
      io_simpl; [|done].
    intros [= <-]. split; [|done]. intros _. split; [reflexivity|].
    do 5 right. left.
Qed.

Lemma compare_stock_data_writes_witness :
  let run :=
    compare_stock_data Sample.world 920225 "processed.csv" "raw.csv" "周线" None in
  let path :=
    default ("stock_" +:+ pretty 920225 +:+ "_" +:+ "周线" +:+ "_comparison_chart.json")
      None in
  (None ≠ Some "" →
     saved_files (trace run) = [path]
     ∧ EvSave path (comparison_chart Sample.combined 920225 "周线") ∈ trace run)
  ∧ (None = Some "" → saved_files (trace run) = []).
Proof.
  apply (compare_stock_data_writes Sample.world 920225 "processed.csv" "raw.csv"
           "周线" None (comparison_chart Sample.combined 920225 "周线")).
  vm_compute. reflexivity.
Defined.

(** C10, as the claim has it, fails: called with the empty string as
    output file the entry point returns a chart and has saved none. *)
Lemma compare_stock_data_empty_path_saves_nothing :
  let run :=
    compare_stock_data Sample.world 920225 "processed.csv" "raw.csv" "周线" (Some "") in
  outcome run = Ok (comparison_chart Sample.combined 920225 "周线")
  ∧ saved_files (trace run) = []
  ∧ trace run
    = [EvPrint "开始处理股票 920225 的周线数据对比...";
       EvPathExists "processed.csv"; EvPathExists "raw.csv";
       EvReadCsv "processed.csv"; EvReadCsv "raw.csv";
       EvPrint "股票 920225 的周线数据对比图表生成完成！"].
Proof. cbn zeta. repeat split; vm_compute; reflexivity. Qed.

(** * Further properties of the script *)

(** ** The loader's failures *)

Ltac load_step := cbn [negb outcome trace mbind result_bind app].

Ltac load_cases_analysis env pf uf code :=
  rewrite load_and_prepare_data_cases; unfold logged, load_cases;
  destruct (path_exists env pf) eqn:Hp; load_step;
    [destruct (path_exists env uf) eqn:Hu; load_step;
       [destruct (read_csv env pf) as [dfp|ep] eqn:Rp; load_step;
          [destruct (read_csv env uf) as [dfu|eu] eqn:Ru; load_step;
             [destruct (load_frames env dfp dfu code) as [table|ef] eqn:F; load_step
             |]|]|]|].

(** Lines 34-37.  When one of the two files is missing the run raises a
    [FileNotFoundError] whose message holds the path of the missing file -
    the processed one if it is missing, whatever the other is - it reads no
    file at all, and it prints that message once. *)
Theorem load_missing_file env pf uf code period :
  path_exists env pf = false ∨ path_exists env uf = false →
  let run := load_and_prepare_data env pf uf code period in
  ∃ msg,
    ((path_exists env pf = false ∧ msg = "处理后的数据文件不存在: " +:+ pf)
     ∨ (path_exists env pf = true ∧ path_exists env uf = false
        ∧ msg = "处理前的数据文件不存在: " +:+ uf))
    ∧ outcome run = Raise (mkExn FileNotFoundError msg)
    ∧ read_files (trace run) = []
    ∧ printed (trace run) = ["数据加载和处理过程中出现错误: " +:+ msg].
Proof.
  intros H. cbn zeta. load_cases_analysis env pf uf code;
    try (destruct H; discriminate).
  - exists ("处理前的数据文件不存在: " +:+ uf). split; [right; done|]. done.
  - exists ("处理后的数据文件不存在: " +:+ pf). split; [left; done|]. done.
Qed.

Lemma load_missing_file_witness :
  let run :=
    load_and_prepare_data Sample.world "processed.csv" "nowhere.csv" 920225 "周线" in
  ∃ msg,
    ((path_exists Sample.world "processed.csv" = false
      ∧ msg = "处理后的数据文件不存在: " +:+ "processed.csv")
     ∨ (path_exists Sample.world "processed.csv" = true
        ∧ path_exists Sample.world "nowhere.csv" = false
        ∧ msg = "处理前的数据文件不存在: " +:+ "nowhere.csv"))
    ∧ outcome run = Raise (mkExn FileNotFoundError msg)
    ∧ read_files (trace run) = []
    ∧ printed (trace run) = ["数据加载和处理过程中出现错误: " +:+ msg].
Proof.
  apply (load_missing_file Sample.world "processed.csv" "nowhere.csv" 920225 "周线").
  right. vm_compute. reflexivity.
Defined.

(** Lines 40-41.  When both files exist and [pd.read_csv] raises on one of
    them, the run raises that very exception; if it is the processed file
    that cannot be read the unprocessed one is not read. *)
Theorem load_read_error env pf uf code period e :
  path_exists env pf = true → path_exists env uf = true →
  read_csv env pf = Raise e
  ∨ (is_ok (read_csv env pf) = true ∧ read_csv env uf = Raise e) →
  let run := load_and_prepare_data env pf uf code period in
  outcome run = Raise e
  ∧ read_files (trace run) = (if is_ok (read_csv env pf) then [pf; uf] else [pf]).
Proof.
  intros Hp' Hu' H. cbn zeta. load_cases_analysis env pf uf code;
    try congruence; cbn [is_ok] in *;
    destruct H as [H|[H' H]]; try discriminate; by injection H as ->.
Qed.

Lemma load_read_error_witness :
  let run :=
    load_and_prepare_data (with_reader Sample.world Annotated.garbled_reader)
      "processed.csv" "raw.csv" 920225 "周线" in
  outcome run = Raise Annotated.garbled
  ∧ read_files (trace run)
    = (if is_ok (read_csv (with_reader Sample.world Annotated.garbled_reader)
                   "processed.csv")
       then ["processed.csv"; "raw.csv"] else ["processed.csv"]).
Proof.
  apply (load_read_error (with_reader Sample.world Annotated.garbled_reader)
           "processed.csv" "raw.csv" 920225 "周线" Annotated.garbled);
    try (vm_compute; reflexivity).
  right. split; vm_compute; reflexivity.
Defined.

(** Lines 32 and 77-79.  A run of the loader that returns a table has
    printed nothing; a run that raises has printed exactly one line, the
    fixed prefix followed by the message of the exception it raises, and
    that print is the last thing it did. *)
Theorem load_failure_logged env pf uf code period :
  let run := load_and_prepare_data env pf uf code period in
  match outcome run with
  | Ok _ => printed (trace run) = []
  | Raise e =>
      printed (trace run) = ["数据加载和处理过程中出现错误: " +:+ exn_msg e]
      ∧ last (trace run) = Some (EvPrint ("数据加载和处理过程中出现错误: " +:+ exn_msg e))
  end.
Proof.
  cbn zeta. load_cases_analysis env pf uf code; by split.
Qed.

(** Lines 33-79.  Whatever the world and the arguments, the loader saves
    nothing; the files it looks for or reads are, in order, an initial part
    of: processed exists?, unprocessed exists?, read processed, read
    unprocessed; and it reads only after both files were found. *)
Theorem load_footprint env pf uf code period :
  let run := load_and_prepare_data env pf uf code period in
  saved_files (trace run) = []
  ∧ touched_files (trace run) `prefix_of` [pf; uf; pf; uf]
  ∧ (read_files (trace run) ≠ [] →
     path_exists env pf = true ∧ path_exists env uf = true).
Proof.
  cbn zeta. load_cases_analysis env pf uf code;
    (split; [reflexivity|]); (split; [by eexists | done]).
Qed.

Lemma load_frames_Raise_inv env dfp dfu code e :
  load_frames env dfp dfu code = Raise e →
  (missing_columns dfp ≠ []
   ∧ e = mkExn ValueError
           ("处理后数据" +:+ "缺少必要的列: " +:+ repr_list (missing_columns dfp)))
  ∨ (missing_columns dfu ≠ []
     ∧ e = mkExn ValueError
             ("处理前数据" +:+ "缺少必要的列: " +:+ repr_list (missing_columns dfu)))
  ∨ (matching dfp code = []
     ∧ e = mkExn ValueError ("在处理后数据中未找到股票代码 " +:+ pretty code))
  ∨ (matching dfu code = []
     ∧ e = mkExn ValueError ("在处理前数据中未找到股票代码 " +:+ pretty code))
  ∨ to_datetime env (trade_dates (matching dfp code)) = Raise e
  ∨ to_datetime env (trade_dates (matching dfu code)) = Raise e.
Proof.
  unfold load_frames.
  destruct (missing_columns dfp) as [|c cs] eqn:Mp; [|intros [= <-]; by left].
  destruct (missing_columns dfu) as [|c cs] eqn:Mu;
    [|intros [= <-]; right; by left].
  destruct (matching dfp code) as [|rp rsp] eqn:Ep;
    [intros [= <-]; do 2 right; by left|].
  destruct (matching dfu code) as [|ru rsu] eqn:Eu;
    [intros [= <-]; do 3 right; by left|].
  intros H. do 4 right.
  destruct (pd_to_datetime env (trade_dates (rp :: rsp))) as [dp|e'] eqn:Dp.
  - destruct (pd_to_datetime env (trade_dates (ru :: rsu))) as [du|e''] eqn:Du;
      [done|]. injection H as ->. right. by apply pd_to_datetime_Raise.
  - injection H as ->. left. by apply pd_to_datetime_Raise.
Qed.

(** Lines 33-79.  The loader raises for these reasons and no other: a
    file is missing, [pd.read_csv] raised, a frame lacks a required column,
    a frame has no row for the code, or [pd.to_datetime] raised on the
    dates of the retained rows of a file.  Its own exceptions are
    [FileNotFoundError] and [ValueError]; any other comes out of a library
    call. *)
Theorem load_failure_reasons env pf uf code period e :
  outcome (load_and_prepare_data env pf uf code period) = Raise e →
  (path_exists env pf = false
   ∧ e = mkExn FileNotFoundError ("处理后的数据文件不存在: " +:+ pf))
  ∨ (path_exists env pf = true ∧ path_exists env uf = false
     ∧ e = mkExn FileNotFoundError ("处理前的数据文件不存在: " +:+ uf))
  ∨ read_csv env pf = Raise e
  ∨ read_csv env uf = Raise e
  ∨ ∃ dfp dfu,
      read_csv env pf = Ok dfp ∧ read_csv env uf = Ok dfu
      ∧ ((missing_columns dfp ≠ []
          ∧ e = mkExn ValueError
                  ("处理后数据" +:+ "缺少必要的列: " +:+ repr_list (missing_columns dfp)))
         ∨ (missing_columns dfu ≠ []
            ∧ e = mkExn ValueError
                    ("处理前数据" +:+ "缺少必要的列: " +:+ repr_list (missing_columns dfu)))
         ∨ (matching dfp code = []
            ∧ e = mkExn ValueError ("在处理后数据中未找到股票代码 " +:+ pretty code))
         ∨ (matching dfu code = []
            ∧ e = mkExn ValueError ("在处理前数据中未找到股票代码 " +:+ pretty code))
         ∨ to_datetime env (trade_dates (matching dfp code)) = Raise e
         ∨ to_datetime env (trade_dates (matching dfu code)) = Raise e).
Proof.
  load_cases_analysis env pf uf code; intros [= <-].
  - do 4 right. exists dfp, dfu. do 2 (split; [done|]).
    by apply load_frames_Raise_inv.
  - do 3 right. by left.
  - do 2 right. by left.
  - right. by left.
  - by left.
Qed.

Lemma load_failure_reasons_witness :
  let e := Sample.format_mismatch in
  let env := Sample.world in
  let pf := "mixed_formats.csv" in
  let uf := "raw.csv" in
  let code := 920225 in
  (path_exists env pf = false
   ∧ e = mkExn FileNotFoundError ("处理后的数据文件不存在: " +:+ pf))
  ∨ (path_exists env pf = true ∧ path_exists env uf = false
     ∧ e = mkExn FileNotFoundError ("处理前的数据文件不存在: " +:+ uf))
  ∨ read_csv env pf = Raise e
  ∨ read_csv env uf = Raise e
  ∨ ∃ dfp dfu,
      read_csv env pf = Ok dfp ∧ read_csv env uf = Ok dfu
      ∧ ((missing_columns dfp ≠ []
          ∧ e = mkExn ValueError
                  ("处理后数据" +:+ "缺少必要的列: " +:+ repr_list (missing_columns dfp)))
         ∨ (missing_columns dfu ≠ []
            ∧ e = mkExn ValueError
                    ("处理前数据" +:+ "缺少必要的列: " +:+ repr_list (missing_columns dfu)))
         ∨ (matching dfp code = []
            ∧ e = mkExn ValueError ("在处理后数据中未找到股票代码 " +:+ pretty code))
         ∨ (matching dfu code = []
            ∧ e = mkExn ValueError ("在处理前数据中未找到股票代码 " +:+ pretty code))
         ∨ to_datetime env (trade_dates (matching dfp code)) = Raise e
         ∨ to_datetime env (trade_dates (matching dfu code)) = Raise e).
Proof.
  apply (load_failure_reasons Sample.world "mixed_formats.csv" "raw.csv" 920225
           "周线" Sample.format_mismatch).
  vm_compute. reflexivity.
Defined.

(** ** The table of a run that returns *)

(** Lines 61-75.  In a table the loader returns every record has a
    timestamp under [trade_date], one of the two tags under [type], and
    nothing under any label other than [trade_date], [close] and [type]:
    the other columns of the files are dropped. *)
Theorem load_table_shape env pf uf code period table :
  outcome (load_and_prepare_data env pf uf code period) = Ok table →
  Forall (λ rec,
            (∃ t, rec !! "trade_date" = Some (CTime t))
            ∧ (rec !! "type" = Some (CStr "处理前")
               ∨ rec !! "type" = Some (CStr "处理后"))
            ∧ ∀ col, col ∉ ["trade_date"; "close"; "type"] → rec !! col = None)
    (rows table).
Proof.
  intros (dfp & dfu & _ & _ & _ & _ & H)%load_Ok_inv.
  apply load_frames_Ok_inv in H as (dp & du & _ & _ & _ & _ & Dp & Du & ->).
  destruct (combined_rows (matching dfu code) du (matching dfp code) dp) as [_ H].
  eapply Forall2_Forall_r; [exact H|].
  apply Forall_app. split.
  - eapply Forall_impl; [apply (plot_rows_stamped env "处理前" _ _ Du)|].
    intros rec0 (r & t & ->) rec Hc. split; [|split].
    + exists t.
      by apply (casted_lookup_Some _ _ _ _ Hc (plot_row_trade_date _ _ _)).
    + left. by apply (casted_lookup_Some _ _ _ _ Hc (plot_row_type _ _ _)).
    + intros col Hcol. apply (casted_lookup_None _ _ _ Hc).
      by apply restrict_lookup_notin.
  - eapply Forall_impl; [apply (plot_rows_stamped env "处理后" _ _ Dp)|].
    intros rec0 (r & t & ->) rec Hc. split; [|split].
    + exists t.
      by apply (casted_lookup_Some _ _ _ _ Hc (plot_row_trade_date _ _ _)).
    + right. by apply (casted_lookup_Some _ _ _ _ Hc (plot_row_type _ _ _)).
    + intros col Hcol. apply (casted_lookup_None _ _ _ Hc).
      by apply restrict_lookup_notin.
Qed.

Lemma load_table_shape_witness :
  Forall (λ rec,
            (∃ t, rec !! "trade_date" = Some (CTime t))
            ∧ (rec !! "type" = Some (CStr "处理前")
               ∨ rec !! "type" = Some (CStr "处理后"))
            ∧ ∀ col, col ∉ ["trade_date"; "close"; "type"] → rec !! col = None)
    (rows Sample.combined).
Proof.
  apply (load_table_shape Sample.world "processed.csv" "raw.csv" 920225 "周线"
           Sample.combined).
  vm_compute. reflexivity.
Defined.

(** Lines 55-58 and 73.  A table the loader returns is never empty: it
    has at least two records, the first one tagged as unprocessed and the
    last one tagged as processed. *)
Theorem load_both_groups env pf uf code period table :
  outcome (load_and_prepare_data env pf uf code period) = Ok table →
  (2 ≤ len table)%nat
  ∧ ∃ first final,
      head (rows table) = Some first ∧ first !! "type" = Some (CStr "处理前")
      ∧ last (rows table) = Some final ∧ final !! "type" = Some (CStr "处理后").
Proof.
  intros (dfp & dfu & _ & _ & _ & _ & H)%load_Ok_inv.
  apply load_frames_Ok_inv in H as (dp & du & _ & _ & Np & Nu & Dp & Du & ->).
  destruct (combined_records env _ _ _ _ Du Dp)
    as (raw & processed & E & Lu & Lp & Fu & Fp).
  unfold len. rewrite E.
  destruct raw as [|first raw];
    [by destruct (matching dfu code)|].
  assert (processed ≠ []) as Hne
    by (intros ->; by destruct (matching dfp code)).
  split.
  { rewrite length_app. destruct processed; [done|]. cbn. lia. }
  exists first. cbn [app head]. rewrite last_cons, last_app.
  destruct (last processed) as [final|] eqn:El; [|by apply last_None in El].
  exists final. split; [done|]. split.
  { apply Forall2_cons_inv_l in Fu as (rd & k & Hm & _ & _). apply Hm. }
  split; [done|].
  apply last_Some_elem_of, list_elem_of_lookup in El as [i Hi].
  destruct (Forall2_lookup_l _ _ _ _ _ Fp Hi) as (rd & _ & Hm). apply Hm.
Qed.

Lemma load_both_groups_witness :
  (2 ≤ len Sample.combined)%nat
  ∧ ∃ first final,
      head (rows Sample.combined) = Some first
      ∧ first !! "type" = Some (CStr "处理前")
      ∧ last (rows Sample.combined) = Some final
      ∧ final !! "type" = Some (CStr "处理后").
Proof.
  apply (load_both_groups Sample.world "processed.csv" "raw.csv" 920225 "周线"
           Sample.combined).
  vm_compute. reflexivity.
Defined.

(** ** Columns the loader does not look at *)

Lemma required_part_lookup (r r' : gmap string Cell) col :
  required_part r = required_part r' → col ∈ required_columns →
  r !! col = r' !! col.
Proof.
  intros H Hin. unfold required_part in H.
  by rewrite <- (restrict_lookup_in required_columns r col),
             <- (restrict_lookup_in required_columns r' col), H.
Qed.

Lemma required_part_cell (r r' : gmap string Cell) col :
  required_part r = required_part r' → col ∈ required_columns →
  cell r col = cell r' col.
Proof. intros H Hin. unfold cell. by rewrite (required_part_lookup r r' col). Qed.

Lemma required_parts_Forall2 (rs rs' : list (gmap string Cell)) :
  required_part <$> rs = required_part <$> rs' →
  Forall2 (λ r r', required_part r = required_part r') rs rs'.
Proof.
  revert rs'. induction rs as [|r rs IH]; intros [|r' rs'] H;
    try discriminate; [constructor|].
  injection H as H H'. constructor; auto.
Qed.

Lemma matching_required_part df df' code :
  required_part <$> rows df = required_part <$> rows df' →
  Forall2 (λ r r', required_part r = required_part r')
    (matching df code) (matching df' code).
Proof.
  intros H%required_parts_Forall2. unfold matching.
  induction H as [|r r' rs rs' Hr _ IH]; cbn [List.filter]; [constructor|].
  rewrite (required_part_cell r r' "stock_code") by (done || labels).
  destruct (eq_scalar (cell r' "stock_code") code); [by constructor | done].
Qed.

(** The record made from a row depends on its [close] only. *)
Lemma plot_row_ext tag (r r' : gmap string Cell) d :
  r !! "close" = r' !! "close" → plot_row tag r d = plot_row tag r' d.
Proof.
  intros Hc. apply map_eq. intros col.
  destruct (decide (col ∈ plot_columns)) as [Hin|Hout].
  - unfold plot_row. rewrite !restrict_lookup_in by done.
    destruct (decide (col = "type")) as [->|?]; [by rewrite !lookup_insert_eq|].
    rewrite !(lookup_insert_ne _ "type") by done.
    destruct (decide (col = "trade_date")) as [->|?]; [by rewrite !lookup_insert_eq|].
    rewrite !(lookup_insert_ne _ "trade_date") by done.
    unfold plot_columns in Hin.
    repeat (apply elem_of_cons in Hin as [->|Hin]; [done|]).
    by apply elem_of_nil in Hin.
  - unfold plot_row. by rewrite !restrict_lookup_notin.
Qed.

Lemma plot_rows_ext tag (rs rs' : list (gmap string Cell)) ds :
  Forall2 (λ r r', required_part r = required_part r') rs rs' →
  trade_dates rs = trade_dates rs'
  ∧ plot_rows tag rs ds = plot_rows tag rs' ds.
Proof.
  intros H. revert ds.
  induction H as [|r r' rs rs' Hr _ IH]; intros ds; [done|].
  destruct (IH []) as [Ht _]. split.
  - unfold trade_dates in *. cbn. rewrite Ht.
    by rewrite (required_part_cell r r' "trade_date") by (done || labels).
  - cbn. destruct (IH (tl ds)) as [_ ->].
    by rewrite (plot_row_ext tag r r' (hd CNaN ds))
      by (apply required_part_lookup; [done | labels]).
Qed.

Lemma load_frames_ext env dfp dfu dfp' dfu' code :
  missing_columns dfp = [] → missing_columns dfu = [] →
  missing_columns dfp' = [] → missing_columns dfu' = [] →
  required_part <$> rows dfp = required_part <$> rows dfp' →
  required_part <$> rows dfu = required_part <$> rows dfu' →
  load_frames env dfp' dfu' code = load_frames env dfp dfu code.
Proof.
  intros Mp Mu Mp' Mu' Hp Hu. unfold load_frames. rewrite Mp, Mu, Mp', Mu'.
  pose proof (matching_required_part dfp dfp' code Hp) as Fp.
  pose proof (matching_required_part dfu dfu' code Hu) as Fu.
  destruct Fp as [|rp rp' rsp rsp' Hrp Fp]; [done|].
  destruct Fu as [|ru ru' rsu rsu' Hru Fu]; [done|].
  assert (Forall2 (λ r r', required_part r = required_part r')
            (rp :: rsp) (rp' :: rsp')) as Ap by by constructor.
  assert (Forall2 (λ r r', required_part r = required_part r')
            (ru :: rsu) (ru' :: rsu')) as Au by by constructor.
  destruct (plot_rows_ext "处理后" _ _ [] Ap) as [<- _].
  destruct (plot_rows_ext "处理前" _ _ [] Au) as [<- _].
  destruct (pd_to_datetime env (trade_dates (rp :: rsp))) as [dp|e]; [|done].
  destruct (pd_to_datetime env (trade_dates (ru :: rsu))) as [du|e]; [|done].
  cbn [mbind result_bind mret result_ret]. unfold combined_table.
  destruct (plot_rows_ext "处理后" _ _ dp Ap) as [_ <-].
  by destruct (plot_rows_ext "处理前" _ _ du Au) as [_ <-].
Qed.

Lemma load_frames_with_reader env reader dfp dfu code :
  load_frames (with_reader env reader) dfp dfu code = load_frames env dfp dfu code.
Proof. unfold load_frames. by rewrite !pd_to_datetime_with_reader. Qed.

(** Lines 51-70.  The loader looks at three columns only.  If the two
    files are replaced by files that have the required columns too and
    whose rows hold, one for one, the same [stock_code], [trade_date] and
    [close], the run is the same - same calls, same table or same
    exception - whatever else the rows hold, a [type] column of the file
    included. *)
Theorem load_ignores_other_columns env reader pf uf code period dfp dfu dfp' dfu' :
  read_csv env pf = Ok dfp → read_csv env uf = Ok dfu →
  reader pf = Ok dfp' → reader uf = Ok dfu' →
  missing_columns dfp = [] → missing_columns dfu = [] →
  missing_columns dfp' = [] → missing_columns dfu' = [] →
  required_part <$> rows dfp = required_part <$> rows dfp' →
  required_part <$> rows dfu = required_part <$> rows dfu' →
  load_and_prepare_data (with_reader env reader) pf uf code period
  = load_and_prepare_data env pf uf code period.
Proof.
  intros Rp Ru Rp' Ru' Mp Mu Mp' Mu' Hp Hu.
  rewrite !load_and_prepare_data_cases. f_equal. unfold load_cases.
  cbn [with_reader path_exists read_csv]. rewrite Rp, Ru, Rp', Ru'.
  cbn [mbind result_bind].
  by rewrite load_frames_with_reader, (load_frames_ext env dfp dfu dfp' dfu').
Qed.

Lemma load_ignores_other_columns_witness :
  load_and_prepare_data (with_reader Sample.world Annotated.reader)
    "processed.csv" "raw.csv" 920225 "周线"
  = load_and_prepare_data Sample.world "processed.csv" "raw.csv" 920225 "周线".
Proof.
  apply (load_ignores_other_columns Sample.world Annotated.reader
           "processed.csv" "raw.csv" 920225 "周线"
           Sample.processed Sample.raw Annotated.processed Annotated.raw);
    vm_compute; reflexivity.
Defined.

(** The annotated files do differ from the sample files. *)
Example annotated_rows_differ :
  rows Annotated.raw ≠ rows Sample.raw
  ∧ has_column Annotated.raw "type" = true
  ∧ has_column Sample.raw "type" = false.
Proof. split; [vm_compute; discriminate | split; vm_compute; reflexivity]. Qed.

(** ** The entry point *)

Lemma load_saves_nothing env pf uf code period :
  saved_files (trace (load_and_prepare_data env pf uf code period)) = [].
Proof. load_cases_analysis env pf uf code; reflexivity. Qed.

Lemma load_printed env pf uf code period :
  printed (trace (load_and_prepare_data env pf uf code period))
  = match outcome (load_and_prepare_data env pf uf code period) with
    | Ok _ => []
    | Raise e => ["数据加载和处理过程中出现错误: " +:+ exn_msg e]
    end.
Proof. load_cases_analysis env pf uf code; reflexivity. Qed.

(** The entry point, by the tests it and its two callees make. *)
Lemma compare_stock_data_cases env code pf uf period out :
  compare_stock_data env code pf uf period out
  = if bool_decide (period ∈ ["周线"; "日线"]) then
      let load := load_and_prepare_data env pf uf code period in
      match outcome load with
      | Raise e => mkIO (EvPrint (started code period) :: trace load) (Raise e)
      | Ok table =>
          let chart := comparison_chart table code period in
          let path := output_path code period out in
          if String.eqb path "" then
            mkIO (EvPrint (started code period)
                    :: trace load ++ [EvPrint (finished code period)])
                 (Ok chart)
          else
            match save_chart env chart path with
            | Ok _ =>
                mkIO (EvPrint (started code period)
                        :: trace load
                        ++ [EvSave path chart; EvPrint ("图表已保存至: " +:+ path);
                            EvPrint (finished code period)])
                     (Ok chart)
            | Raise e =>
                mkIO (EvPrint (started code period) :: trace load ++ [EvSave path chart])
                     (Raise e)
            end
      end
    else mkIO [] (Raise (mkExn ValueError "period_type 必须是 '周线' 或 '日线'")).
Proof.
  unfold compare_stock_data, started, finished, output_path.
  destruct (bool_decide (period ∈ ["周线"; "日线"])); io_simpl; [|done].
  destruct (load_and_prepare_data env pf uf code period) as [tl [table|e]];
    io_simpl; [|done].
  rewrite create_comparison_chart_cases. cbn zeta.
  destruct out as [p|]; cbn [truthy].
  - change (default _ (Some p)) with p.
    destruct (String.eqb p ""); cbn [negb]; io_simpl; [done|].
    by destruct (save_chart env (comparison_chart table code period) p).
  - change (default ?x None) with x.
    unfold generated_output_file. cbn [String.append String.eqb Ascii.eqb negb].
    by destruct (save_chart env (comparison_chart table code period) _).
Qed.

(** Lines 166-174.  The entry point does no I/O at all exactly when the
    period label is not one of the two it recognizes: with a recognized
    label its trace is never empty. *)
Theorem compare_stock_data_silent_iff env code pf uf period out :
  trace (compare_stock_data env code pf uf period out) = []
  ↔ period ∉ ["周线"; "日线"].
Proof.
  rewrite compare_stock_data_cases. split.
  - intros H Hin. rewrite (bool_decide_eq_true_2 _ Hin) in H. cbn zeta in H.
    destruct (outcome (load_and_prepare_data env pf uf code period)); [|done].
    destruct (String.eqb _ ""); [done|].
    by destruct (save_chart env _ _).
  - intros Hout. by rewrite (bool_decide_eq_false_2 _ Hout).
Qed.

(** Lines 177-190.  With a recognized period label, when the loader raises
    the entry point raises the same exception: it has printed its opening
    line and the loader's diagnostic, has done what the loader did and
    nothing more - the renderer is not reached and nothing is saved. *)
Theorem compare_stock_data_loader_failure env code pf uf period out e :
  period ∈ ["周线"; "日线"] →
  outcome (load_and_prepare_data env pf uf code period) = Raise e →
  let run := compare_stock_data env code pf uf period out in
  outcome run = Raise e
  ∧ trace run
    = EvPrint (started code period)
      :: trace (load_and_prepare_data env pf uf code period)
  ∧ saved_files (trace run) = []
  ∧ printed (trace run)
    = [started code period; "数据加载和处理过程中出现错误: " +:+ exn_msg e].
Proof.
  intros Hin He. cbn zeta. rewrite compare_stock_data_cases.
  rewrite (bool_decide_eq_true_2 _ Hin). cbn zeta. rewrite He.
  cbn [outcome trace]. do 2 (split; [done|]).
  change (saved_files (EvPrint ?l :: ?t)) with (saved_files t).
  change (printed (EvPrint ?l :: ?t)) with (l :: printed t).
  by rewrite load_saves_nothing, load_printed, He.
Qed.

Lemma compare_stock_data_loader_failure_witness :
  let e := mkExn ValueError "在处理后数据中未找到股票代码 1" in
  let run :=
    compare_stock_data Sample.world 1 "processed.csv" "raw.csv" "日线"
      (Some "chart.json") in
  outcome run = Raise e
  ∧ trace run
    = EvPrint (started 1 "日线")
      :: trace (load_and_prepare_data Sample.world "processed.csv" "raw.csv" 1 "日线")
  ∧ saved_files (trace run) = []
  ∧ printed (trace run)
    = [started 1 "日线"; "数据加载和处理过程中出现错误: " +:+ exn_msg e].
Proof.
  apply (compare_stock_data_loader_failure Sample.world 1 "processed.csv" "raw.csv"
           "日线" (Some "chart.json")
           (mkExn ValueError "在处理后数据中未找到股票代码 1")).
  - labels.
  - vm_compute. reflexivity.
Defined.

(** Lines 166-193.  A run of the entry point that returns a chart had a
    recognized period label; the loader returned a table and the chart is
    the one the renderer builds from that table, the code and the period;
    the calls were, in this order: the opening line, the loader's four
    calls, the save and its report (unless the output file is the empty
    string), the closing line. *)
Theorem compare_stock_data_success env code pf uf period out chart :
  outcome (compare_stock_data env code pf uf period out) = Ok chart →
  let path := output_path code period out in
  period ∈ ["周线"; "日线"]
  ∧ ∃ table,
      outcome (load_and_prepare_data env pf uf code period) = Ok table
      ∧ chart = comparison_chart table code period
      ∧ trace (compare_stock_data env code pf uf period out)
        = ([EvPrint (started code period);
            EvPathExists pf; EvPathExists uf; EvReadCsv pf; EvReadCsv uf]
           ++ (if String.eqb path "" then []
               else [EvSave path chart; EvPrint ("图表已保存至: " +:+ path)])
           ++ [EvPrint (finished code period)])%list.
Proof.
  cbn zeta. rewrite compare_stock_data_cases.
  destruct (bool_decide_reflect (period ∈ ["周线"; "日线"])) as [Hin|Hout]; [|done].
  cbn zeta.
  destruct (outcome (load_and_prepare_data env pf uf code period))
    as [table|e] eqn:L; [|done].
  rewrite (load_Ok_trace env pf uf code period table L).
  destruct (String.eqb (output_path code period out) "").
  - intros [= <-]. split; [done|]. by exists table.
  - destruct (save_chart env _ _); [|done].
    intros [= <-]. split; [done|]. by exists table.
Qed.

Lemma compare_stock_data_success_witness :
  let env := Sample.world in
  let chart := comparison_chart Sample.combined 920225 "日线" in
  let path := output_path 920225 "日线" (Some "chart.json") in
  "日线" ∈ ["周线"; "日线"]
  ∧ ∃ table,
      outcome (load_and_prepare_data env "processed.csv" "raw.csv" 920225 "日线")
      = Ok table
      ∧ chart = comparison_chart table 920225 "日线"
      ∧ trace (compare_stock_data env 920225 "processed.csv" "raw.csv" "日线"
                 (Some "chart.json"))
        = ([EvPrint (started 920225 "日线");
            EvPathExists "processed.csv"; EvPathExists "raw.csv";
            EvReadCsv "processed.csv"; EvReadCsv "raw.csv"]
           ++ (if String.eqb path "" then []
               else [EvSave path chart; EvPrint ("图表已保存至: " +:+ path)])
           ++ [EvPrint (finished 920225 "日线")])%list.
Proof.
  apply (compare_stock_data_success Sample.world 920225 "processed.csv" "raw.csv"
           "日线" (Some "chart.json")
           (comparison_chart Sample.combined 920225 "日线")).
  vm_compute. reflexivity.
Defined.

(** Lines 131-133 and 185-193.  A run of the entry point that raises has
    either called [chart.save] not at all, or called it once as the last
    thing it did, and what it raises is what that call raised: nothing is
    printed after a save that failed. *)
Theorem compare_stock_data_failure env code pf uf period out e :
  outcome (compare_stock_data env code pf uf period out) = Raise e →
  let run := compare_stock_data env code pf uf period out in
  let path := output_path code period out in
  saved_files (trace run) = []
  ∨ ∃ chart,
      saved_files (trace run) = [path]
      ∧ last (trace run) = Some (EvSave path chart)
      ∧ save_chart env chart path = Raise e.
Proof.
  cbn zeta. rewrite compare_stock_data_cases.
  destruct (bool_decide (period ∈ ["周线"; "日线"])); [|by left].
  cbn zeta.
  destruct (outcome (load_and_prepare_data env pf uf code period))
    as [table|e'] eqn:L.
  - destruct (String.eqb (output_path code period out) ""); [done|].
    destruct (save_chart env _ _) as [|e'] eqn:S; [done|].
    intros [= <-]. right. exists (comparison_chart table code period).
    cbn [trace]. rewrite (load_Ok_trace env pf uf code period table L).
    by repeat split.
  - intros _. left. cbn [trace].
    change (saved_files (EvPrint ?l :: ?t)) with (saved_files t).
    apply load_saves_nothing.
Qed.

Lemma compare_stock_data_failure_witness :
  let env := Annotated.read_only_world in
  let run :=
    compare_stock_data env 920225 "processed.csv" "raw.csv" "周线" None in
  let path := output_path 920225 "周线" None in
  saved_files (trace run) = []
  ∨ ∃ chart,
      saved_files (trace run) = [path]
      ∧ last (trace run) = Some (EvSave path chart)
      ∧ save_chart env chart path = Raise Annotated.disk_full.
Proof.
  apply (compare_stock_data_failure Annotated.read_only_world 920225
           "processed.csv" "raw.csv" "周线" None Annotated.disk_full).
  vm_compute. reflexivity.
Defined.

(** ** The generated file name *)

Lemma string_app_length (s t : string) :
  String.length (s +:+ t) = (String.length s + String.length t)%nat.
Proof.
  induction s as [|a s IH]; [done|].
  change (String a s +:+ t) with (String a (s +:+ t)).
  cbn [String.length]. by rewrite IH.
Qed.

(** Two concatenations with tails of one length are equal part by part. *)
Lemma string_app_inv (s1 s2 t1 t2 : string) :
  String.length t1 = String.length t2 →
  s1 +:+ t1 = s2 +:+ t2 → s1 = s2 ∧ t1 = t2.
Proof.
  intros Hlen. revert s2.
  induction s1 as [|a s1 IH]; intros [|b s2] H.
  - done.
  - exfalso. apply (f_equal String.length) in H.
    rewrite !string_app_length in H. cbn [String.length] in H. lia.
  - exfalso. apply (f_equal String.length) in H.
    rewrite !string_app_length in H. cbn [String.length] in H. lia.
  - change (String a (s1 +:+ t1) = String b (s2 +:+ t2)) in H.
    injection H as -> H. by destruct (IH _ H) as [-> ->].
Qed.

(** Line 172.  For the two recognized period labels the generated file
    name tells the run: two runs get the same default output file only if
    they are for the same stock code and the same period. *)
Theorem generated_output_file_inj code1 code2 period1 period2 :
  period1 ∈ ["周线"; "日线"] → period2 ∈ ["周线"; "日线"] →
  generated_output_file code1 period1 = generated_output_file code2 period2 →
  code1 = code2 ∧ period1 = period2.
Proof.
  intros H1 H2. unfold generated_output_file. intros H.
  apply (inj (String.app "stock_")) in H.
  apply string_app_inv in H as [Hc Hp].
  - split; [by apply (inj pretty)|].
    repeat (apply elem_of_cons in H1 as [->|H1]);
      repeat (apply elem_of_cons in H2 as [->|H2]);
      try (by apply elem_of_nil in H1); try (by apply elem_of_nil in H2);
      done.
  - repeat (apply elem_of_cons in H1 as [->|H1]);
      repeat (apply elem_of_cons in H2 as [->|H2]);
      try (by apply elem_of_nil in H1); try (by apply elem_of_nil in H2);
      reflexivity.
Qed.

Lemma generated_output_file_inj_witness :
  920225 = 920225 ∧ "周线" = "周线".
Proof.
  apply (generated_output_file_inj 920225 920225 "周线" "周线");
    [labels | labels | reflexivity].
Defined.

Example generated_output_file_sample :
  generated_output_file 920225 "周线" = "stock_920225_周线_comparison_chart.json"
  ∧ generated_output_file 920225 "日线" ≠ generated_output_file 920225 "周线"
  ∧ generated_output_file 920226 "周线" ≠ generated_output_file 920225 "周线".
Proof. repeat split; vm_compute; (reflexivity || discriminate). Qed.
